(** * share/middleware: the interception layer of lib/useragent.js and
    lib/middleware.js, embedded in Rocq.

    The JavaScript is written in continuation-passing style around shared
    mutable objects.  The embedding keeps that shape: every function of the
    source is a computation in a small monad [M] that carries the agent's
    [_connectCalled] flag and a heap for the variables captured by closures,
    and that produces the trace of what the collaborators observed and the
    closures handed to [process.nextTick]. *)

From Stdlib Require Import ZArith String List Lia.
From stdpp Require Import base option list strings gmap pretty.

Open Scope string_scope.
Open Scope list_scope.
Set Warnings "-register-all".

(** ** JavaScript values *)

Inductive jsval : Type :=
| JUndef
| JNull
| JBool (b : bool)
| JNum (n : Z)
| JStr (s : string)
| JArr (items : list jsval)
| JObj (props : list (string * jsval))
| JRef (name : string)
| JWrapped (collection docName source : jsval).

(** [if (v)] *)
Definition truthy (v : jsval) : bool :=
  match v with
  | JUndef | JNull => false
  | JBool b => b
  | JNum n => negb (n =? 0)%Z
  | JStr s => negb (String.eqb s "")
  | _ => true
  end.

Fixpoint assoc (k : string) (props : list (string * jsval)) : option jsval :=
  match props with
  | [] => None
  | (k', v) :: rest => if String.eqb k k' then Some v else assoc k rest
  end.

Fixpoint assoc_set (k : string) (v : jsval) (props : list (string * jsval))
  : list (string * jsval) :=
  match props with
  | [] => [(k, v)]
  | (k', v') :: rest =>
      if String.eqb k k' then (k, v) :: rest else (k', v') :: assoc_set k v rest
  end.

(** [o[k]] for reading, [o[k] = v] for writing, [for (k in o)]. *)
Definition js_get (o : jsval) (k : string) : jsval :=
  match o with
  | JObj props => default JUndef (assoc k props)
  | _ => JUndef
  end.

Definition js_set (o : jsval) (k : string) (v : jsval) : jsval :=
  match o with
  | JObj props => JObj (assoc_set k v props)
  | _ => o
  end.

Definition js_index (a : jsval) (i : nat) : jsval :=
  match a with
  | JArr items => nth i items JUndef
  | _ => JUndef
  end.

Definition js_entries (o : jsval) : list (string * jsval) :=
  match o with
  | JObj props => props
  | JArr items => imap (fun i v => (pretty i, v)) items
  | JStr s =>
      imap (fun i c => (pretty i, JStr (String c EmptyString)))
        (list_ascii_of_string s)
  | _ => []
  end.

(** [v.length]; [None] is the TypeError of a property read on
    [undefined] or [null]. *)
Definition js_length (v : jsval) : option jsval :=
  match v with
  | JUndef | JNull => None
  | JArr items => Some (JNum (Z.of_nat (length items)))
  | JStr s => Some (JNum (Z.of_nat (String.length s)))
  | JObj props => Some (default JUndef (assoc "length" props))
  | _ => Some JUndef
  end.

(** The properties every plain object inherits from Object.prototype:
    [o[k]] finds the inherited value, a function or the prototype
    itself, when [o] has no property of its own under [k]. *)
Definition inheritedNames : list string :=
  ["constructor"; "hasOwnProperty"; "isPrototypeOf"; "propertyIsEnumerable";
   "toLocaleString"; "toString"; "valueOf"; "__proto__";
   "__defineGetter__"; "__defineSetter__";
   "__lookupGetter__"; "__lookupSetter__"].

Definition inherited (k : string) : bool :=
  existsb (String.eqb k) inheritedNames.

(** ** The Request: an open bag of fields, keyed by name *)

Abbreviation Request := (gmap string jsval).

Definition field (r : Request) (k : string) : jsval := default JUndef (r !! k).

(** ** Observations, state and the monad *)

Inductive Event : Type :=
| EvMiddleware (name : string)
| EvBackend (op : string) (args : list jsval)
| EvFilter (name : string) (collection docName data : jsval)
| EvCallback (args : list jsval)
| EvPush (wrapper chunk : jsval)
| EvDestroy (stream : jsval)
| EvMark (label : string).

Record State : Type := mkState {
  connectCalled : bool;      (* agent._connectCalled *)
  heap : list jsval          (* variables captured by closures *)
}.

Inductive Result (A : Type) : Type :=
| Ok (a : A)
| Throw (msg : string).
Arguments Ok {A} a.
Arguments Throw {A} msg.

(** A task is a closure waiting in the [process.nextTick] queue. *)
Inductive Task : Type :=
| MkTask (body : State -> Result unit * State * list Event * list Task).

(** A computation returns or throws, changes the state, appends to the
    trace and queues tasks. *)
Definition M (A : Type) : Type :=
  State -> Result A * State * list Event * list Task.

Definition ret {A} (a : A) : M A := fun s => (Ok a, s, [], []).

Definition bind {A B} (m : M A) (k : A -> M B) : M B :=
  fun s =>
    match m s with
    | (Ok a, s1, o1, q1) =>
        match k a s1 with
        | (r, s2, o2, q2) => (r, s2, o1 ++ o2, q1 ++ q2)
        end
    | (Throw msg, s1, o1, q1) => (Throw msg, s1, o1, q1)
    end.

Notation "x <- m ;; k" := (bind m (fun x => k))
  (at level 100, m at next level, right associativity).
Notation "m ;; k" := (bind m (fun _ => k))
  (at level 100, right associativity).

Definition throw {A} (msg : string) : M A := fun s => (Throw msg, s, [], []).

Definition emit (e : Event) : M unit := fun s => (Ok tt, s, [e], []).

Definition tell (es : list Event) : M unit := fun s => (Ok tt, s, es, []).

Definition getConnectCalled : M bool :=
  fun s => (Ok (connectCalled s), s, [], []).

Definition setConnectCalled (b : bool) : M unit :=
  fun s => (Ok tt, mkState b (heap s), [], []).

Definition alloc (v : jsval) : M nat :=
  fun s => (Ok (length (heap s)), mkState (connectCalled s) (heap s ++ [v]), [], []).

Definition load (l : nat) : M jsval :=
  fun s => (Ok (default JUndef (heap s !! l)), s, [], []).

Definition store (l : nat) (v : jsval) : M unit :=
  fun s => (Ok tt, mkState (connectCalled s) (<[l := v]> (heap s)), [], []).

(** [process.nextTick(f)] *)
Definition nextTick (f : M unit) : M unit := fun s => (Ok tt, s, [], [MkTask f]).

(** The event loop: run queued closures in order, the closures they
    queue after them; an uncaught exception ends the process. *)
Fixpoint run_ticks (fuel : nat) (s : State) (q : list Task)
  : State * list Event * list Task :=
  match fuel, q with
  | S n, MkTask f :: rest =>
      match f s with
      | (Ok _, s1, o1, new) =>
          match run_ticks n s1 (rest ++ new) with
          | (s2, o2, q2) => (s2, o1 ++ o2, q2)
          end
      | (Throw _, s1, o1, _) => (s1, o1, [])
      end
  | _, _ => (s, [], q)
  end.

(** ** Middleware, filters and the backend collaborator *)

(** How a step answers: it calls [next(err)] once, before it returns,
    or never.  Where the steps run one after the other (runMethod,
    _runFilters) a step that answers on a later turn delays the rest of
    the run without changing it, so the moment of the answer is not
    recorded.  Where chains run side by side (runBulkDocFilters,
    filterQueryResults) the order of the answers in time decides which
    error is the first: [BulkStep] below records that order for
    runBulkDocFilters, and every other statement about the two is for
    steps that answer before they return. *)
Inductive Signal : Type :=
| Next (err : jsval)
| Silent.

(** [function(request)] (arity one, advances by itself) or
    [function(request, next)]. *)
Inductive MwBody : Type :=
| MwSync (f : Request -> Request)
| MwAsync (f : Request -> Request * Signal).

(** The name labels the function in the trace. *)
Record MwFn : Type := mkMw { mw_name : string; mw_body : MwBody }.

(** [function(collection, docName, data, next)]: the value returned is
    [data] after the filter's in-place changes. *)
Record Filter : Type := mkFilter {
  f_name : string;
  f_run : jsval -> jsval -> jsval -> jsval * Signal
}.

(** The backend answers an operation by calling back with positional
    arguments, or never. *)
Definition Backend : Type := string -> list jsval -> option (list jsval).

(** [methods] is the object used as a map from an action name, or ''
    for all actions, to its list: the map holds the object's own
    properties, and a name that is not among them is looked up in
    [inheritedNames]. *)
Record Middleware : Type := mkMiddleware {
  backend : Backend;
  methods : gmap string (list MwFn);
  docFilters : list Filter;
  opFilters : list Filter
}.

Definition RunCb : Type := jsval -> option (Backend * Request) -> M unit.
Definition Cb : Type := list jsval -> M unit.

Definition arg (i : nat) (args : list jsval) : jsval := nth i args JUndef.

(** ** lib/middleware.js *)

Definition newMiddleware (b : Backend) : Middleware :=
  mkMiddleware b {[ "" := [] ]} [] [].

Definition use (action : option string) (middleware : MwFn) (self : Middleware)
  : Result Middleware :=
  let action := default "" action in
  if String.eqb action "fetch" || String.eqb action "subscribe" then
    Throw "fetch and subscribe middleware not implemented - add 'bulk fetch' or 'bulk subscribe' instead"
  else
    match methods self !! action with
    | None =>
        if inherited action then Throw "TypeError: methods.push is not a function"
        else
          Ok (mkMiddleware (backend self)
                (<[action := [middleware]]> (methods self))
                (docFilters self) (opFilters self))
    | Some list =>
        Ok (mkMiddleware (backend self)
              (<[action := list ++ [middleware]]> (methods self))
              (docFilters self) (opFilters self))
    end.

Definition filter (fn : Filter) (self : Middleware) : Middleware :=
  mkMiddleware (backend self) (methods self) (docFilters self ++ [fn]) (opFilters self).

Definition filterOps (fn : Filter) (self : Middleware) : Middleware :=
  mkMiddleware (backend self) (methods self) (docFilters self) (opFilters self ++ [fn]).

(** The closure [next] of runMethod; [middlewares.shift()] is the
    pattern match. *)
Fixpoint next (b : Backend) (callback : option RunCb)
  (middlewares : list MwFn) (request : Request) : M unit :=
  match middlewares with
  | [] =>
      match callback with
      | Some cb => cb JNull (Some (b, request))
      | None => ret tt
      end
  | middleware :: rest =>
      emit (EvMiddleware (mw_name middleware)) ;;
      match mw_body middleware with
      | MwSync f => next b callback rest (f request)
      | MwAsync f =>
          match f request with
          | (request', Next err) =>
              if truthy err then
                match callback with
                | Some cb => cb err None
                | None => ret tt
                end
              else next b callback rest request'
          | (_, Silent) => ret tt
          end
      end
  end.

(** [this.methods[request.action] || []]: trigger always stores a
    string.  For an inherited name without a list of its own the value
    found is not a list, and [.concat] on it throws a TypeError. *)
Definition methodsFor (self : Middleware) (request : Request)
  : Result (list MwFn) :=
  match request !! "action" with
  | Some (JStr a) =>
      match methods self !! a with
      | Some list => Ok list
      | None =>
          if inherited a then
            Throw "TypeError: (this.methods[request.action] || []).concat is not a function"
          else Ok []
      end
  | _ => Ok []
  end.

Definition runMethod (self : Middleware) (request : Request)
  (callback : option RunCb) : M unit :=
  match methodsFor self request with
  | Ok list =>
      let middlewares := list ++ default [] (methods self !! "") in
      next (backend self) callback middlewares request
  | Throw msg => throw msg
  end.

(** [request] is [None] when the caller passed the callback in its
    place ([typeof request === 'function']). *)
Definition buildRequest (agent : jsval) (action : string)
  (collection docName : jsval) (request : option Request) : Request :=
  let request := default ∅ request in
  let request := <["agent" := agent]> request in
  let request := <["action" := JStr action]> request in
  let request := if truthy collection then <["collection" := collection]> request
                 else request in
  let request := if truthy docName then <["docName" := docName]> request
                 else request in
  <["backend" := JRef "backend"]> request.

Definition trigger (self : Middleware) (agent : jsval) (action : string)
  (collection docName : jsval) (request : option Request)
  (callback : option RunCb) : M unit :=
  let request := buildRequest agent action collection docName request in
  nextTick (runMethod self request callback).

(** async.eachSeries(arr, iterator, callback).  The object the iterator
    changes in place is threaded as [data], so that each step and the
    final callback see its current contents. *)
Fixpoint eachSeries {A} (arr : list A)
  (iterator : A -> jsval -> (jsval -> jsval -> M unit) -> M unit)
  (data : jsval) (callback : jsval -> jsval -> M unit) : M unit :=
  match arr with
  | [] => callback JUndef data
  | x :: rest =>
      iterator x data (fun err data' =>
        if truthy err then callback err data'
        else eachSeries rest iterator data' callback)
  end.

(** [filter.call(self, collection, docName, data, next)] *)
Definition callFilter (filter : Filter) (collection docName data : jsval)
  (next : jsval -> jsval -> M unit) : M unit :=
  emit (EvFilter (f_name filter) collection docName data) ;;
  match f_run filter collection docName data with
  | (data', Next err) => next err data'
  | (_, Silent) => ret tt
  end.

Definition _runFilters (filters : list Filter) (collection docName data : jsval)
  (callback : jsval -> jsval -> M unit) : M unit :=
  eachSeries filters
    (fun filter data next => callFilter filter collection docName data next)
    data
    (fun error data => callback error (if truthy error then JNull else data)).

Definition runDocFilters (self : Middleware) (collection docName data : jsval)
  (callback : jsval -> jsval -> M unit) : M unit :=
  _runFilters (docFilters self) collection docName data callback.

Definition runOpFilters (self : Middleware) (collection docName ops : jsval)
  (callback : jsval -> jsval -> M unit) : M unit :=
  _runFilters (opFilters self) collection docName ops callback.

Fixpoint forEach {A} (l : list A) (body : A -> M unit) : M unit :=
  match l with
  | [] => ret tt
  | x :: rest => body x ;; forEach rest body
  end.

Definition js_add (v : jsval) (k : Z) : jsval :=
  match v with
  | JNum n => JNum (n + k)
  | _ => v
  end.

Definition js_is (v : jsval) (k : Z) : bool :=
  match v with
  | JNum n => (n =? k)%Z
  | _ => false
  end.

Definition callCb (callback : option Cb) (args : list jsval) : M unit :=
  match callback with
  | Some cb => cb args
  | None => ret tt
  end.

(** [work++] *)
Definition incr (l : nat) : M unit :=
  w <- load l ;;
  store l (js_add w 1).

(** The closure variables of runBulkDocFilters live in the heap: [work],
    whether [callback] is still non-null ([live]), and the map [data]
    itself, which the filters change in place. *)
Definition bulkDone (work live data : nat) (callback : option Cb) : M unit :=
  w <- load work ;;
  store work (js_add w (-1)) ;;
  w <- load work ;;
  l <- load live ;;
  if js_is w 0 && truthy l then d <- load data ;; callCb callback [JNull; d]
  else ret tt.

(** The callback given to runDocFilters for one document.  [doc'] is
    the document after the filters changed it; it reaches the map
    because [data[cName][docName]] is that very object. *)
Definition bulkDocCallback (work live data : nat) (callback : option Cb)
  (cName docName : string) (err doc' : jsval) : M unit :=
  (if truthy err then ret tt
   else d <- load data ;;
        store data (js_set d cName (js_set (js_get d cName) docName doc'))) ;;
  l <- load live ;;
  (if truthy err && truthy l then
     callCb callback [err] ;; store live JNull
   else ret tt) ;;
  bulkDone work live data callback.

Definition runBulkDocFilters (self : Middleware) (data : jsval)
  (callback : option Cb) : M unit :=
  work <- alloc (JNum 1) ;;
  live <- alloc (JBool (match callback with Some _ => true | None => false end)) ;;
  cell <- alloc data ;;
  forEach (js_entries data) (fun '(cName, docs) =>
    forEach (js_entries docs) (fun '(docName, doc) =>
      incr work ;;
      runDocFilters self (JStr cName) (JStr docName) doc
        (bulkDocCallback work live cell callback cName docName))) ;;
  bulkDone work live cell callback.

(** wrapOpStream returns the Transform [passthrough]; its two methods
    follow, with the variables they capture as parameters.  [EvPush]
    records a call of [passthrough.push]; what the reader of the
    passthrough gets of the chunks pushed is [readable] below. *)
Definition wrapOpStream (self : Middleware) (collection docName stream : jsval)
  : jsval :=
  JWrapped collection docName stream.

Definition transform (self : Middleware) (collection docName stream : jsval)
  (data : jsval) (callback : M unit) : M unit :=
  runOpFilters self collection docName (JArr [data]) (fun err data =>
    emit (EvPush (JWrapped collection docName stream)
            (if truthy err then JObj [("error", err)] else js_index data 0)) ;;
    callback).

Definition destroyPassthrough (stream : jsval) : M unit :=
  emit (EvDestroy stream).

(** [stream.pipe(passthrough)]: the source hands its chunks over one at
    a time, the next one when [callback] of the previous one ran. *)
Fixpoint pipe (self : Middleware) (collection docName stream : jsval)
  (chunks : list jsval) : M unit :=
  match chunks with
  | [] => ret tt
  | data :: rest =>
      transform self collection docName stream data
        (pipe self collection docName stream rest)
  end.

(** [passthrough.push(chunk)] on a Transform: null is the end-of-stream
    marker, and so is undefined in the streams of the source's time.
    It ends the readable side: neither it nor any chunk pushed after it
    is forwarded to the reader. *)
Definition endOfStream (chunk : jsval) : bool :=
  match chunk with
  | JNull | JUndef => true
  | _ => false
  end.

Fixpoint readable (chunks : list jsval) : list jsval :=
  match chunks with
  | [] => []
  | chunk :: rest =>
      if endOfStream chunk then [] else chunk :: readable rest
  end.

(** The source emits [chunks] and the caller holds [wrapper].  The
    passthrough made by wrapOpStream has the source piped into it, so
    every chunk goes through [_transform]; a stream that was not
    wrapped hands its chunks to the reader as they are. *)
Definition emits (self : Middleware) (wrapper : jsval) (chunks : list jsval)
  : M unit :=
  match wrapper with
  | JWrapped collection docName stream =>
      pipe self collection docName stream chunks
  | _ => forEach chunks (fun chunk => emit (EvPush wrapper chunk))
  end.

Definition js_map_entries (f : string -> jsval -> jsval) (o : jsval) : jsval :=
  match o with
  | JObj props => JObj (map (fun '(k, v) => (k, f k v)) props)
  | JArr items => JArr (imap (fun i v => f (pretty i) v) items)
  | _ => o
  end.

Definition wrapOpStreams (self : Middleware) (streams : jsval) : jsval :=
  js_map_entries (fun cName docs =>
    js_map_entries (fun docName stream =>
      wrapOpStream self (JStr cName) (JStr docName) stream) docs) streams.

Definition js_items (a : jsval) : list jsval :=
  match a with
  | JArr items => items
  | _ => []
  end.

(** async.each(arr, iterator, callback): every iterator is started;
    the callback runs on the first error or when all have completed. *)
Definition asyncEach {A} (arr : list A)
  (iterator : A -> (jsval -> M unit) -> M unit)
  (callback : jsval -> M unit) : M unit :=
  match arr with
  | [] => callback JUndef
  | _ =>
      completed <- alloc (JNum 0) ;;
      live <- alloc (JBool true) ;;
      forEach arr (fun x =>
        iterator x (fun err =>
          l <- load live ;;
          if truthy err then
            (if truthy l then callback err ;; store live JNull else ret tt)
          else
            c <- load completed ;;
            store completed (js_add c 1) ;;
            c <- load completed ;;
            if js_is c (Z.of_nat (length arr)) && truthy l then callback JUndef
            else ret tt))
  end.

Definition filterQueryResults (self : Middleware) (collection results : jsval)
  (callback : jsval -> jsval -> M unit) : M unit :=
  cell <- alloc results ;;
  asyncEach (imap (fun i data => (i, data)) (js_items results))
    (fun '(i, data) innerCb =>
      runDocFilters self collection (js_get data "docName") data (fun err data' =>
        (if truthy err then ret tt
         else r <- load cell ;; store cell (JArr (<[i := data']> (js_items r)))) ;;
        innerCb err))
    (fun error => r <- load cell ;; callback error r).

(** ** lib/useragent.js *)

Definition thisAgent : jsval := JRef "agent".

(** [new UserAgent(middleware)]: [_connectCalled] starts false. *)
Definition newUserAgent : State := mkState false [].

Definition _trigger (self : Middleware) (action : string)
  (collection docName : jsval) (request : option Request)
  (callback : option RunCb) : M unit :=
  called <- getConnectCalled ;;
  if negb (String.eqb action "connect") && negb called then
    throw (String.append "UserAgent did not trigger connect before calling method "
             action)
  else trigger self thisAgent action collection docName request callback.

Definition connect (self : Middleware) (stream initialReq : jsval)
  (callback : Cb) : M unit :=
  _trigger self "connect" JNull JNull
    (Some (<["stream" := stream]> (<["initialReq" := initialReq]> ∅)))
    (Some (fun err _ =>
       (if negb (truthy err) then setConnectCalled true else ret tt) ;;
       callback [err])).

(** [function(err, backend, action) { if (err) return callback(err); ... }] *)
Definition onTriggered (callback : Cb) (k : Backend -> Request -> M unit) : RunCb :=
  fun err payload =>
    if truthy err then callback [err]
    else match payload with
         | Some (b, action) => k b action
         | None => throw "TypeError: Cannot read property of undefined"
         end.

(** [backend.op(args..., function(...) {...})] *)
Definition callBackend (b : Backend) (op : string) (args : list jsval)
  (callback : list jsval -> M unit) : M unit :=
  emit (EvBackend op args) ;;
  match b op args with
  | Some answer => callback answer
  | None => ret tt
  end.

Definition fetch (self : Middleware) (collection docName : jsval)
  (callback : Cb) : M unit :=
  _trigger self "fetch" collection docName None
    (Some (onTriggered callback (fun backend action =>
       let collection := field action "collection" in
       let docName := field action "docName" in
       callBackend backend "fetch" [collection; docName] (fun r =>
         let err := arg 0 r in
         let data := arg 1 r in
         if truthy err then callback [err]
         else if truthy data then
           runDocFilters self collection docName data (fun e d => callback [e; d])
         else callback [JNull; data])))).

Fixpoint requestsEmpty (entries : list (string * jsval)) : Result bool :=
  match entries with
  | [] => Ok true
  | (_, docs) :: rest =>
      match js_length docs with
      | None => Throw "TypeError: Cannot read property 'length' of undefined"
      | Some n => if truthy n then Ok false else requestsEmpty rest
      end
  end.

Definition bulkFetchRequestsEmpty (requests : jsval) : Result bool :=
  requestsEmpty (js_entries requests).

Definition liftR {A} (r : Result A) : M A := fun s => (r, s, [], []).

Definition bulkFetch (self : Middleware) (requests : jsval) (callback : Cb)
  : M unit :=
  _trigger self "bulk fetch" JNull JNull (Some (<["requests" := requests]> ∅))
    (Some (onTriggered callback (fun backend action =>
       let requests := field action "requests" in
       empty <- liftR (bulkFetchRequestsEmpty requests) ;;
       if empty then callback [JNull; JObj []]
       else
         callBackend backend "bulkFetch" [requests] (fun r =>
           let err := arg 0 r in
           let data := arg 1 r in
           if truthy err then callback [err]
           else runBulkDocFilters self data (Some callback))))).

Definition getOps (self : Middleware) (collection docName start end_ : jsval)
  (callback : Cb) : M unit :=
  _trigger self "get ops" collection docName
    (Some (<["start" := start]> (<["end" := end_]> ∅)))
    (Some (onTriggered callback (fun backend action =>
       callBackend backend "getOps"
         [field action "collection"; field action "docName"; start; end_]
         (fun r =>
            let err := arg 0 r in
            let results := arg 1 r in
            if truthy err then callback [err]
            else runOpFilters self collection docName results
                   (fun e d => callback [e; d]))))).

Definition subscribe (self : Middleware) (collection docName version : jsval)
  (callback : Cb) : M unit :=
  _trigger self "subscribe" collection docName (Some (<["version" := version]> ∅))
    (Some (onTriggered callback (fun backend action =>
       let collection := field action "collection" in
       let docName := field action "docName" in
       let version := field action "version" in
       callBackend backend "subscribe" [collection; docName; version] (fun r =>
         let err := arg 0 r in
         let stream := arg 1 r in
         callback [err; if truthy err then JNull
                        else wrapOpStream self collection docName stream])))).

Definition bulkSubscribe (self : Middleware) (requests : jsval) (callback : Cb)
  : M unit :=
  _trigger self "bulk subscribe" JNull JNull (Some (<["requests" := requests]> ∅))
    (Some (onTriggered callback (fun backend action =>
       let requests := field action "requests" in
       callBackend backend "bulkSubscribe" [requests] (fun r =>
         let err := arg 0 r in
         let streams := arg 1 r in
         callback [err; if truthy err then JNull
                        else wrapOpStreams self streams])))).

Definition fetchAndSubscribe (self : Middleware) (collection docName : jsval)
  (callback : Cb) : M unit :=
  _trigger self "fetch" collection docName None
    (Some (onTriggered callback (fun backend action =>
       _trigger self "subscribe" (field action "collection") (field action "docName")
         None
         (Some (onTriggered callback (fun backend action =>
            let collection := field action "collection" in
            let docName := field action "docName" in
            callBackend backend "fetchAndSubscribe" [collection; docName] (fun r =>
              let err := arg 0 r in
              let data := arg 1 r in
              let stream := arg 2 r in
              if truthy err then callback [err]
              else
                runDocFilters self collection docName data (fun err data =>
                  if truthy err then callback [err]
                  else
                    let wrappedStream := wrapOpStream self collection docName stream in
                    callback [JNull; data; wrappedStream])))))))).

(** [options] is [None] when the caller passed the callback in its
    place ([typeof options === 'function']). *)
Definition submit (self : Middleware) (collection docName opData : jsval)
  (options : option jsval) (callback : Cb) : M unit :=
  let options := default (JObj []) options in
  _trigger self "submit" collection docName
    (Some (<["opData" := opData]> (<["channelPrefix" := JNull]> ∅)))
    (Some (onTriggered callback (fun backend action =>
       let collection := field action "collection" in
       let docName := field action "docName" in
       let opData := field action "opData" in
       let options := js_set options "channelPrefix" (field action "channelPrefix") in
       callBackend backend "submit" [collection; docName; opData; options] (fun r =>
         let err := arg 0 r in
         let v := arg 1 r in
         let ops := arg 2 r in
         let snapshot := arg 3 r in
         if truthy err then callback [err]
         else
           _trigger self "after submit" collection docName
             (Some (<["opData" := opData]> (<["snapshot" := snapshot]> ∅)))
             (Some (fun err _ => callback [err; v; ops])))))).

Definition queryFetch (self : Middleware) (collection query options : jsval)
  (callback : Cb) : M unit :=
  _trigger self "query" collection JNull
    (Some (<["query" := query]> (<["fetch" := JBool true]>
            (<["options" := options]> ∅))))
    (Some (onTriggered callback (fun backend action =>
       let collection := field action "collection" in
       let query := field action "query" in
       callBackend backend "queryFetch" [collection; query; options] (fun r =>
         let err := arg 0 r in
         let results := arg 1 r in
         let extra := arg 2 r in
         if truthy err then callback [err]
         else if truthy results then
           filterQueryResults self collection results (fun err results =>
             if truthy err then callback [err]
             else callback [JNull; results; extra])
         else callback [JNull; results; extra])))).

(** The wrapped emitter is delivered with [data] and [extra]; its
    listeners run on later events of the backend's emitter. *)
Definition query (self : Middleware) (collection query options : jsval)
  (callback : Cb) : M unit :=
  _trigger self "query" collection JNull
    (Some (<["query" := query]> (<["options" := options]> ∅)))
    (Some (onTriggered callback (fun backend action =>
       let collection := field action "collection" in
       let query := field action "query" in
       callBackend backend "query" [collection; query; options] (fun r =>
         let err := arg 0 r in
         let emitter := arg 1 r in
         if truthy err then callback [err]
         else
           filterQueryResults self collection (js_get emitter "data") (fun err data =>
             if truthy err then callback [err]
             else
               let wrapped := JObj [("data", data); ("extra", js_get emitter "extra")] in
               callback [JNull; wrapped]))))).

(** The public operations other than connect, with their arguments. *)
Inductive Operation : Type :=
| OpFetch (collection docName : jsval)
| OpBulkFetch (requests : jsval)
| OpGetOps (collection docName start end_ : jsval)
| OpSubscribe (collection docName version : jsval)
| OpBulkSubscribe (requests : jsval)
| OpFetchAndSubscribe (collection docName : jsval)
| OpSubmit (collection docName opData : jsval) (options : option jsval)
| OpQueryFetch (collection query options : jsval)
| OpQuery (collection query options : jsval).

Definition invoke (self : Middleware) (op : Operation) (callback : Cb) : M unit :=
  match op with
  | OpFetch c d => fetch self c d callback
  | OpBulkFetch r => bulkFetch self r callback
  | OpGetOps c d s e => getOps self c d s e callback
  | OpSubscribe c d v => subscribe self c d v callback
  | OpBulkSubscribe r => bulkSubscribe self r callback
  | OpFetchAndSubscribe c d => fetchAndSubscribe self c d callback
  | OpSubmit c d o opts => submit self c d o opts callback
  | OpQueryFetch c q o => queryFetch self c q o callback
  | OpQuery c q o => query self c q o callback
  end.

(** The caller's callback, as the trace sees it. *)
Definition deliver : Cb := fun args => emit (EvCallback args).

(** ** Vocabulary of the statements *)

(** What one middleware step does to the request and how it answers. *)
Definition mwStep (m : MwFn) (request : Request) : Request * Signal :=
  match mw_body m with
  | MwSync f => (f request, Next JUndef)
  | MwAsync f => f request
  end.

(** The request after every step of [ms] ran. *)
Fixpoint rewritten (ms : list MwFn) (request : Request) : Request :=
  match ms with
  | [] => request
  | m :: rest => rewritten rest (fst (mwStep m request))
  end.

(** Every step of [ms] advances: it answers, and without an error. *)
Fixpoint advances (ms : list MwFn) (request : Request) : bool :=
  match ms with
  | [] => true
  | m :: rest =>
      match mwStep m request with
      | (request', Next err) => negb (truthy err) && advances rest request'
      | (_, Silent) => false
      end
  end.

Definition vetoes (m : MwFn) (request : Request) (err : jsval) : Prop :=
  snd (mwStep m request) = Next err /\ truthy err = true.

Definition invoked (ms : list MwFn) : list Event :=
  map (fun m => EvMiddleware (mw_name m)) ms.

(** The same for a filter chain over [data]. *)
Fixpoint filtered (fs : list Filter) (collection docName data : jsval) : jsval :=
  match fs with
  | [] => data
  | f :: rest => filtered rest collection docName (fst (f_run f collection docName data))
  end.

Fixpoint accepts (fs : list Filter) (collection docName data : jsval) : bool :=
  match fs with
  | [] => true
  | f :: rest =>
      match f_run f collection docName data with
      | (data', Next err) => negb (truthy err) && accepts rest collection docName data'
      | (_, Silent) => false
      end
  end.

Definition rejects (f : Filter) (collection docName data err : jsval) : Prop :=
  snd (f_run f collection docName data) = Next err /\ truthy err = true.

Fixpoint observed (fs : list Filter) (collection docName data : jsval)
  : list Event :=
  match fs with
  | [] => []
  | f :: rest =>
      EvFilter (f_name f) collection docName data
      :: observed rest collection docName (fst (f_run f collection docName data))
  end.

(** What a run of [_runFilters] amounts to: the filters invoked, and the
    pair handed to the callback, if the chain answers at all. *)
Fixpoint chainRun (fs : list Filter) (collection docName data : jsval)
  : list Event * option (jsval * jsval) :=
  match fs with
  | [] => ([], Some (JUndef, data))
  | f :: rest =>
      let ev := EvFilter (f_name f) collection docName data in
      match f_run f collection docName data with
      | (data', Next err) =>
          if truthy err then ([ev], Some (err, JNull))
          else (ev :: fst (chainRun rest collection docName data'),
                snd (chainRun rest collection docName data'))
      | (_, Silent) => ([ev], None)
      end
  end.

Definition isFilterEvent (e : Event) : bool :=
  match e with
  | EvFilter _ _ _ _ => true
  | _ => false
  end.

(** The chunks given to [push], in order. *)
Fixpoint pushed (tr : list Event) : list jsval :=
  match tr with
  | [] => []
  | EvPush _ chunk :: rest => chunk :: pushed rest
  | _ :: rest => pushed rest
  end.

Fixpoint destroys (tr : list Event) : nat :=
  match tr with
  | [] => 0
  | EvDestroy _ :: rest => S (destroys rest)
  | _ :: rest => destroys rest
  end.

(** [wrapper.destroy()] *)
Definition destroyOf (wrapper : jsval) : M unit :=
  match wrapper with
  | JWrapped _ _ stream => destroyPassthrough stream
  | _ => ret tt
  end.

Fixpoint times (n : nat) (m : M unit) : M unit :=
  match n with
  | O => ret tt
  | S k => m ;; times k m
  end.

(** What the wrapper forwards for the source's event [e]. *)
Definition forwards (self : Middleware) (collection docName e chunk : jsval)
  : Prop :=
  match snd (chainRun (opFilters self) collection docName (JArr [e])) with
  | Some (err, data') =>
      if truthy err then chunk = JObj [("error", err)]
      else chunk = js_index data' 0
  | None => False
  end.

(** The op filters answer for the event [e], and what is pushed for it
    is a chunk: the error wrapper, or an element 0 that is not an
    end-of-stream marker. *)
Definition forwardable (self : Middleware) (collection docName e : jsval)
  : bool :=
  match snd (chainRun (opFilters self) collection docName (JArr [e])) with
  | Some (err, data') => truthy err || negb (endOfStream (js_index data' 0))
  | None => false
  end.

Definition traceOf {A} (m : M A) (s : State) : list Event := snd (fst (m s)).

(** What happens during one run of runBulkDocFilters, in the order in
    which it happens: the loop reaches a document and starts its
    filters, a filter is invoked, the filters of a document call back,
    the loop is over. *)
Inductive BulkStep : Type :=
| Started
| Filtering (name : string) (collection docName data : jsval)
| Completed (cName docName : string) (err doc' : jsval)
| LoopEnded.

Definition bulkStep (work live data : nat) (callback : option Cb)
  (st : BulkStep) : M unit :=
  match st with
  | Started => incr work
  | Filtering name collection docName doc =>
      emit (EvFilter name collection docName doc)
  | Completed cName docName err doc' =>
      bulkDocCallback work live data callback cName docName err doc'
  | LoopEnded => bulkDone work live data callback
  end.

(** A callback comes after its start, and the loop ends once, after the
    last start. *)
Fixpoint wellFormed (started completed : nat) (ended : bool)
  (sch : list BulkStep) : bool :=
  match sch with
  | [] => true
  | Started :: rest => negb ended && wellFormed (S started) completed ended rest
  | Filtering _ _ _ _ :: rest => wellFormed started completed ended rest
  | Completed _ _ _ _ :: rest =>
      Nat.ltb completed started && wellFormed started (S completed) ended rest
  | LoopEnded :: rest => negb ended && wellFormed started completed true rest
  end.

Fixpoint firstError (sch : list BulkStep) : option jsval :=
  match sch with
  | [] => None
  | Completed _ _ err _ :: rest =>
      if truthy err then Some err else firstError rest
  | _ :: rest => firstError rest
  end.

(** The map after the in-place changes of the documents that passed. *)
Fixpoint written (sch : list BulkStep) (d : jsval) : jsval :=
  match sch with
  | [] => d
  | Completed cName docName err doc' :: rest =>
      written rest
        (if truthy err then d
         else js_set d cName (js_set (js_get d cName) docName doc'))
  | _ :: rest => written rest d
  end.

Fixpoint countStarted (sch : list BulkStep) : nat :=
  match sch with
  | [] => 0
  | Started :: rest => S (countStarted rest)
  | _ :: rest => countStarted rest
  end.

Fixpoint countCompleted (sch : list BulkStep) : nat :=
  match sch with
  | [] => 0
  | Completed _ _ _ _ :: rest => S (countCompleted rest)
  | _ :: rest => countCompleted rest
  end.

Fixpoint loopEnded (sch : list BulkStep) : bool :=
  match sch with
  | [] => false
  | LoopEnded :: _ => true
  | _ :: rest => loopEnded rest
  end.

(** Every invocation that was started has called back, and the loop is
    over. *)
Definition settled (sch : list BulkStep) : bool :=
  Nat.eqb (countStarted sch) (countCompleted sch) && loopEnded sch.

(** The argument lists of the caller's callback, in order. *)
Fixpoint callbacks (tr : list Event) : list (list jsval) :=
  match tr with
  | [] => []
  | EvCallback args :: rest => args :: callbacks rest
  | _ :: rest => callbacks rest
  end.

(** The three cells of a run, on top of the heap [h0]. *)
Definition frame (c : bool) (h0 : list jsval) (w l d : jsval) : State :=
  mkState c (h0 ++ [w; l; d]).

(** The steps of a run whose three cells sit on top of [h0], with the
    caller's callback as the trace sees it. *)
Definition frameStep (h0 : list jsval) : BulkStep -> M unit :=
  bulkStep (length h0) (S (length h0)) (S (S (length h0))) (Some deliver).

(** The steps of a synchronous run: for each document in for-in order
    its start, its filter invocations and its callback (if the chain
    answers), and at last the end of the loop. *)
Fixpoint asSteps (tr : list Event) : list BulkStep :=
  match tr with
  | [] => []
  | EvFilter name collection docName data :: rest =>
      Filtering name collection docName data :: asSteps rest
  | _ :: rest => asSteps rest
  end.

Definition docSchedule (self : Middleware) (cName docName : string) (doc : jsval)
  : list BulkStep :=
  Started
  :: asSteps (fst (chainRun (docFilters self) (JStr cName) (JStr docName) doc))
  ++ match snd (chainRun (docFilters self) (JStr cName) (JStr docName) doc) with
     | Some (err, doc') => [Completed cName docName err doc']
     | None => []
     end.

Definition syncSchedule (self : Middleware) (data : jsval) : list BulkStep :=
  flat_map (fun '(cName, docs) =>
    flat_map (fun '(docName, doc) => docSchedule self cName docName doc)
      (js_entries docs)) (js_entries data)
  ++ [LoopEnded].

(** ** Scenarios *)

Definition js_str_is (v : jsval) (s : string) : bool :=
  match v with
  | JStr t => String.eqb t s
  | _ => false
  end.

(** The doc filter of the header comment of useragent.js. *)
Definition marioFilter : Filter :=
  mkFilter "mario" (fun collection docName docData =>
    if js_str_is docName "mario" then
      (js_set docData "greeting" (JStr "It'se me: Mario"), Next JUndef)
    else (docData, Next (JStr "Document not found!"))).

(** An op filter that rejects a batch whose first operation cheats. *)
Definition cheatFilter : Filter :=
  mkFilter "cheat" (fun collection docName ops =>
    if js_str_is (js_get (js_index ops 0) "op") "cheat" then
      (ops, Next (JStr "Not on my watch!"))
    else (ops, Next JUndef)).

(** A 'get ops' middleware that redirects the request. *)
Definition redirect : MwFn :=
  mkMw "redirect" (MwSync (fun request =>
    <["collection" := JStr "people"]>
      (<["docName" := JStr "mario"]>
        (<["start" := JNum 5]> (<["end" := JNum 6]> request))))).

(** A 'query' middleware that replaces the options. *)
Definition limitQuery : MwFn :=
  mkMw "limit" (MwSync (fun request =>
    <["options" := JObj [("limit", JNum 1)]]> request)).

Definition audit : MwFn := mkMw "audit" (MwSync (fun request => request)).

Definition forbid : MwFn :=
  mkMw "forbid" (MwAsync (fun request => (request, Next (JStr "Forbidden")))).

Definition someOps : jsval :=
  JArr [JObj [("op", JStr "insert")]; JObj [("op", JStr "cheat")]].

Definition storage : Backend := fun op args =>
  match op with
  | "fetch" =>
      if js_str_is (arg 1 args) "mario" then
        Some [JNull; JObj [("name", JStr "Mario")]]
      else Some [JNull; JNull]
  | "getOps" => Some [JNull; someOps]
  | "queryFetch" => Some [JNull; JNull; JNull]
  | _ => None
  end.

Definition registered (uses : list (option string * MwFn)) (self : Middleware)
  : Middleware :=
  fold_left (fun self '(action, m) =>
               match use action m self with
               | Ok self' => self'
               | Throw _ => self
               end) uses self.

Definition server : Middleware :=
  registered [(Some "get ops", redirect); (Some "query", limitQuery);
              (None, audit)]
    (filterOps cheatFilter (filter marioFilter (newMiddleware storage))).

Definition guarded : Middleware :=
  registered [(Some "connect", forbid)] (newMiddleware storage).

Definition fresh : State := newUserAgent.
Definition connected : State := mkState true [].

(** More scenarios: steps and filters that refuse or never answer,
    a backend that fails and one that answers every operation. *)
Definition mute : MwFn :=
  mkMw "mute" (MwAsync (fun request => (request, Silent))).

Definition muteFilter : Filter :=
  mkFilter "mute" (fun collection docName data => (data, Silent)).

Definition locked : Middleware :=
  registered [(None, forbid)] (newMiddleware storage).

Definition hung : Middleware :=
  registered [(Some "query", mute)] (newMiddleware storage).

Definition stalled : Middleware :=
  filterOps muteFilter (newMiddleware storage).

Definition failing : Backend := fun op args => Some [JStr "backend down"].

Definition broken : Middleware := newMiddleware failing.

(** An op filter that blanks a cheating operation instead of rejecting
    the batch. *)
Definition blankFilter : Filter :=
  mkFilter "blank" (fun collection docName ops =>
    if js_str_is (js_get (js_index ops 0) "op") "cheat" then
      (JArr [JNull], Next JUndef)
    else (ops, Next JUndef)).

Definition blanking : Middleware :=
  filterOps blankFilter (newMiddleware storage).

Definition marioResult : jsval := JObj [("docName", JStr "mario")].
Definition peachesResult : jsval := JObj [("docName", JStr "peaches")].

Definition stocked : Backend := fun op args =>
  match op with
  | "subscribe" => Some [JNull; JRef "source"]
  | "bulkSubscribe" =>
      Some [JNull; JObj [("people", JObj [("mario", JRef "source")])]]
  | "fetchAndSubscribe" => Some [JNull; JNull; JRef "source"]
  | "submit" => Some [JNull; JNum 7; JArr []; JObj [("name", JStr "Mario")]]
  | "bulkFetch" =>
      Some [JNull;
            JObj [("people", JObj [("mario", JObj []); ("peaches", JObj [])])]]
  | "queryFetch" => Some [JNull; JArr [marioResult; peachesResult]; JStr "more"]
  | "query" =>
      Some [JNull; JObj [("data", JArr [marioResult]); ("extra", JStr "more")]]
  | _ => None
  end.

Definition hub : Middleware :=
  registered [(None, audit)] (filter marioFilter (newMiddleware stocked)).

(** ** Vocabulary of the further statements *)

(** The action and the request of the dispatch an operation starts
    with, and the chain that dispatch runs. *)
Definition opAction (op : Operation) : string :=
  match op with
  | OpFetch _ _ | OpFetchAndSubscribe _ _ => "fetch"
  | OpBulkFetch _ => "bulk fetch"
  | OpGetOps _ _ _ _ => "get ops"
  | OpSubscribe _ _ _ => "subscribe"
  | OpBulkSubscribe _ => "bulk subscribe"
  | OpSubmit _ _ _ _ => "submit"
  | OpQueryFetch _ _ _ | OpQuery _ _ _ => "query"
  end.

Definition opRequest (op : Operation) : Request :=
  match op with
  | OpFetch c d | OpFetchAndSubscribe c d =>
      buildRequest thisAgent "fetch" c d None
  | OpBulkFetch r =>
      buildRequest thisAgent "bulk fetch" JNull JNull
        (Some (<["requests" := r]> ∅))
  | OpGetOps c d s e =>
      buildRequest thisAgent "get ops" c d
        (Some (<["start" := s]> (<["end" := e]> ∅)))
  | OpSubscribe c d v =>
      buildRequest thisAgent "subscribe" c d (Some (<["version" := v]> ∅))
  | OpBulkSubscribe r =>
      buildRequest thisAgent "bulk subscribe" JNull JNull
        (Some (<["requests" := r]> ∅))
  | OpSubmit c d o _ =>
      buildRequest thisAgent "submit" c d
        (Some (<["opData" := o]> (<["channelPrefix" := JNull]> ∅)))
  | OpQueryFetch c q o =>
      buildRequest thisAgent "query" c JNull
        (Some (<["query" := q]> (<["fetch" := JBool true]>
                (<["options" := o]> ∅))))
  | OpQuery c q o =>
      buildRequest thisAgent "query" c JNull
        (Some (<["query" := q]> (<["options" := o]> ∅)))
  end.

Definition chainOf (self : Middleware) (action : string) : list MwFn :=
  default [] (methods self !! action) ++ default [] (methods self !! "").

(** The backend operation an operation with a single dispatch calls, and
    its arguments, given the request as the chain left it. *)
Definition backendCall (op : Operation) (action : Request)
  : option (string * list jsval) :=
  match op with
  | OpFetch _ _ =>
      Some ("fetch", [field action "collection"; field action "docName"])
  | OpGetOps _ _ s e =>
      Some ("getOps",
            [field action "collection"; field action "docName"; s; e])
  | OpSubscribe _ _ _ =>
      Some ("subscribe",
            [field action "collection"; field action "docName";
             field action "version"])
  | OpBulkSubscribe _ => Some ("bulkSubscribe", [field action "requests"])
  | OpSubmit _ _ _ options =>
      Some ("submit",
            [field action "collection"; field action "docName";
             field action "opData";
             js_set (default (JObj []) options) "channelPrefix"
               (field action "channelPrefix")])
  | OpQueryFetch _ _ o =>
      Some ("queryFetch", [field action "collection"; field action "query"; o])
  | OpQuery _ _ o =>
      Some ("query", [field action "collection"; field action "query"; o])
  | OpBulkFetch _ | OpFetchAndSubscribe _ _ => None
  end.

(** What the caller receives when that backend call fails. *)
Definition errorArgs (op : Operation) (err : jsval) : list jsval :=
  match op with
  | OpSubscribe _ _ _ | OpBulkSubscribe _ => [err; JNull]
  | _ => [err]
  end.

(** The shapes the source relies on where it reads or writes a property
    of a value it was given, or calls a method of it: a query result is
    an object ([data.docName]); a stream has [pipe] and [destroy]; the
    bulk operations pass maps collection -> docName -> value; submit
    writes [channelPrefix] into its options when it is given some. *)
Definition isObject (v : jsval) : bool :=
  match v with
  | JObj _ => true
  | _ => false
  end.

Definition isStream (v : jsval) : bool :=
  match v with
  | JRef _ | JWrapped _ _ _ => true
  | _ => false
  end.

Definition isBulkMap (isValue : jsval -> bool) (v : jsval) : bool :=
  match v with
  | JObj props =>
      forallb (fun entry : string * jsval =>
                 match snd entry with
                 | JObj docs =>
                     forallb (fun doc : string * jsval => isValue (snd doc)) docs
                 | _ => false
                 end) props
  | _ => false
  end.

Definition writableOptions (op : Operation) : bool :=
  match op with
  | OpSubmit _ _ _ (Some options) => isObject options
  | _ => true
  end.

(** The registries that can be built: a new Middleware, then use,
    filter and filterOps. *)
Inductive Configured : Middleware -> Prop :=
| configured_new b : Configured (newMiddleware b)
| configured_use action m self self' :
    Configured self -> use action m self = Ok self' -> Configured self'
| configured_filter fn self : Configured self -> Configured (filter fn self)
| configured_filterOps fn self :
    Configured self -> Configured (filterOps fn self).

(** The closure [done] of async.each over [n] items and the iterator
    filterQueryResults gives it, with the variables they capture as
    parameters. *)
Definition eachDone (completed live n : nat) (callback : jsval -> M unit)
  (err : jsval) : M unit :=
  l <- load live ;;
  if truthy err then
    (if truthy l then callback err ;; store live JNull else ret tt)
  else
    c <- load completed ;;
    store completed (js_add c 1) ;;
    c <- load completed ;;
    if js_is c (Z.of_nat n) && truthy l then callback JUndef
    else ret tt.

Definition queryItem (self : Middleware) (collection : jsval)
  (cell completed live n : nat) (callback : jsval -> jsval -> M unit)
  (item : nat * jsval) : M unit :=
  let '(i, data) := item in
  runDocFilters self collection (js_get data "docName") data (fun err data' =>
    (if truthy err then ret tt
     else r <- load cell ;; store cell (JArr (<[i := data']> (js_items r)))) ;;
    eachDone completed live n (fun error => r <- load cell ;; callback error r)
      err).

Fixpoint indexed (i : nat) (items : list jsval) : list (nat * jsval) :=
  match items with
  | [] => []
  | d :: rest => (i, d) :: indexed (S i) rest
  end.

(** The run of the doc filters over one query result; [answersAtOnce]
    when every filter of the run calls next, which in this model is
    before the filter returns. *)
Definition itemRun (self : Middleware) (collection data : jsval)
  : list Event * option (jsval * jsval) :=
  chainRun (docFilters self) collection (js_get data "docName") data.

Definition answersAtOnce (self : Middleware) (collection data : jsval)
  : Prop :=
  snd (itemRun self collection data) <> None.

Fixpoint firstRejection (self : Middleware) (collection : jsval)
  (items : list jsval) : option jsval :=
  match items with
  | [] => None
  | d :: rest =>
      match snd (itemRun self collection d) with
      | Some (e, _) =>
          if truthy e then Some e else firstRejection self collection rest
      | None => firstRejection self collection rest
      end
  end.

Definition filteredItem (self : Middleware) (collection data : jsval) : jsval :=
  match snd (itemRun self collection data) with
  | Some (e, v) => if truthy e then data else v
  | None => data
  end.

(** The filter invocations of a trace, and its other events. *)
Fixpoint filterings (tr : list Event) : list Event :=
  match tr with
  | [] => []
  | EvFilter n c d x :: rest => EvFilter n c d x :: filterings rest
  | _ :: rest => filterings rest
  end.

Fixpoint others (tr : list Event) : list Event :=
  match tr with
  | [] => []
  | EvFilter _ _ _ _ :: rest => others rest
  | e :: rest => e :: others rest
  end.

(** ** The monad's equations *)

Lemma tell_nil {A} (c : M A) s : bind (tell []) (fun _ => c) s = c s.
Proof.
  unfold bind, tell. destruct (c s) as [[[r s'] o] q]. reflexivity.
Qed.

Lemma emit_tell {A} e es (c : M A) s :
  (emit e ;; bind (tell es) (fun _ => c)) s = bind (tell (e :: es)) (fun _ => c) s.
Proof.
  unfold bind, emit, tell. destruct (c s) as [[[r s'] o] q]. reflexivity.
Qed.

Lemma emit_cong {A} e (c1 c2 : M A) s :
  (forall s', c1 s' = c2 s') -> (emit e ;; c1) s = (emit e ;; c2) s.
Proof.
  intros H. unfold bind, emit. rewrite H. reflexivity.
Qed.

Lemma tell_cong {A} es (c1 c2 : M A) s :
  (forall s', c1 s' = c2 s') ->
  bind (tell es) (fun _ => c1) s = bind (tell es) (fun _ => c2) s.
Proof.
  intros H. unfold bind, tell. rewrite H. reflexivity.
Qed.

Lemma tell_app {A} es1 es2 (c : M A) s :
  bind (tell es1) (fun _ => bind (tell es2) (fun _ => c)) s
  = bind (tell (es1 ++ es2)) (fun _ => c) s.
Proof.
  unfold bind, tell. destruct (c s) as [[[r s'] o] q]. simpl.
  rewrite app_assoc. reflexivity.
Qed.

(** ** The dispatcher *)

Lemma next_cons b cb m rest request s :
  next b cb (m :: rest) request s
  = (emit (EvMiddleware (mw_name m)) ;;
     match mwStep m request with
     | (request', Next err) =>
         if truthy err then
           match cb with Some f => f err None | None => ret tt end
         else next b cb rest request'
     | (_, Silent) => ret tt
     end) s.
Proof.
  simpl. apply emit_cong. intros s'. unfold mwStep.
  destruct (mw_body m) as [f | f]; simpl; reflexivity.
Qed.

Lemma next_advances b cb ms : forall request s,
  advances ms request = true ->
  next b (Some cb) ms request s
  = bind (tell (invoked ms))
      (fun _ => cb JNull (Some (b, rewritten ms request))) s.
Proof.
  induction ms as [| m rest IH]; intros request s Hadv.
  - simpl. symmetry. apply tell_nil.
  - rewrite next_cons. simpl in Hadv. simpl rewritten. simpl invoked.
    destruct (mwStep m request) as [request' [err |]] eqn:Hstep; [| discriminate].
    apply andb_true_iff in Hadv as [Hfalsy Hrest].
    apply negb_true_iff in Hfalsy. rewrite Hfalsy. simpl fst.
    rewrite <- emit_tell. apply emit_cong. intros s'. apply IH, Hrest.
Qed.

Lemma next_vetoed b cb m post err : forall pre request s,
  advances pre request = true ->
  vetoes m (rewritten pre request) err ->
  next b (Some cb) (pre ++ m :: post) request s
  = bind (tell (invoked (pre ++ [m]))) (fun _ => cb err None) s.
Proof.
  induction pre as [| p pre IH]; intros request s Hadv [Hsig Htruthy].
  - simpl app. rewrite next_cons. simpl in Hsig.
    destruct (mwStep m request) as [request' sig]. simpl in Hsig. subst sig.
    rewrite Htruthy. simpl invoked. rewrite <- emit_tell.
    apply emit_cong. intros s'. symmetry. apply tell_nil.
  - simpl app. rewrite next_cons. simpl in Hadv, Hsig.
    destruct (mwStep p request) as [request' [e |]] eqn:Hstep; [| discriminate].
    apply andb_true_iff in Hadv as [Hfalsy Hrest].
    apply negb_true_iff in Hfalsy. rewrite Hfalsy. simpl in Hsig.
    simpl invoked. rewrite <- emit_tell. apply emit_cong. intros s'.
    apply IH; [exact Hrest | split; assumption].
Qed.

Lemma next_silent b cb m post : forall pre request s,
  advances pre request = true ->
  snd (mwStep m (rewritten pre request)) = Silent ->
  next b cb (pre ++ m :: post) request s
  = (Ok tt, s, invoked (pre ++ [m]), []).
Proof.
  induction pre as [| p pre IH]; intros request s Hadv Hsig.
  - simpl app. rewrite next_cons. simpl in Hsig.
    destruct (mwStep m request) as [request' sig]. simpl in Hsig. subst sig.
    reflexivity.
  - simpl app. rewrite next_cons. simpl in Hadv, Hsig.
    destruct (mwStep p request) as [request' [e |]] eqn:Hstep; [| discriminate].
    apply andb_true_iff in Hadv as [Hfalsy Hrest].
    apply negb_true_iff in Hfalsy. rewrite Hfalsy. simpl in Hsig.
    unfold bind, emit. rewrite (IH _ _ Hrest Hsig). reflexivity.
Qed.

(** use appends: a list is in registration order. *)
Lemma use_appends action m self self' :
  use action m self = Ok self' ->
  methods self' !! default "" action
  = Some (default [] (methods self !! default "" action) ++ [m])
  /\ (forall a, a <> default "" action -> methods self' !! a = methods self !! a)
  /\ backend self' = backend self.
Proof.
  unfold use. destruct (_ || _); [discriminate |].
  destruct (methods self !! default "" action) as [list |];
    [| destruct (inherited (default "" action)); [discriminate |]];
    intros H; injection H as <-; simpl; (split; [| split]);
    first [ apply lookup_insert_eq
          | intros a Ha; apply lookup_insert_ne; congruence
          | reflexivity ].
Qed.

(** The reserved key is present from construction on. *)
Lemma use_keeps_global action m self self' :
  is_Some (methods self !! "") ->
  use action m self = Ok self' ->
  is_Some (methods self' !! "").
Proof.
  intros Hsome Huse. destruct (use_appends _ _ _ _ Huse) as (Hat & Hother & _).
  destruct (decide ("" = default "" action)) as [-> | Hne].
  - rewrite Hat. eauto.
  - rewrite Hother by exact Hne. exact Hsome.
Qed.

Lemma buildRequest_action agent action collection docName request :
  buildRequest agent action collection docName request !! "action"
  = Some (JStr action).
Proof.
  unfold buildRequest. rewrite lookup_insert_ne by done.
  destruct (truthy docName), (truthy collection);
    repeat (rewrite lookup_insert_ne by done); apply lookup_insert_eq.
Qed.

Lemma runMethod_unfold self a request cb s :
  request !! "action" = Some (JStr a) ->
  inherited a = false ->
  runMethod self request cb s
  = next (backend self) cb
      (default [] (methods self !! a) ++ default [] (methods self !! "")) request s.
Proof.
  intros Ha Hown. unfold runMethod, methodsFor. rewrite Ha.
  destruct (methods self !! a) as [list |]; [reflexivity |].
  rewrite Hown. reflexivity.
Qed.

(** On the name of an inherited property the dispatcher throws before
    any step runs, and use throws instead of registering. *)
Lemma runMethod_inherited_action_throws self a request cb s :
  request !! "action" = Some (JStr a) ->
  inherited a = true ->
  methods self !! a = None ->
  exists msg, runMethod self request cb s = (Throw msg, s, [], []).
Proof.
  intros Ha Hinh Hnone. unfold runMethod, methodsFor.
  rewrite Ha, Hnone, Hinh. eexists. reflexivity.
Qed.

Lemma use_inherited_action_throws a m self :
  inherited a = true ->
  methods self !! a = None ->
  exists msg, use (Some a) m self = Throw msg.
Proof.
  intros Hinh Hnone. unfold use. simpl default.
  destruct (_ || _); [eexists; reflexivity |].
  rewrite Hnone, Hinh. eexists. reflexivity.
Qed.

(** C2: for an action that is not the name of a property the registry
    object inherits, a dispatcher run executes the action's list and
    then the list registered for all actions, each in the order [use]
    appended them.
    If every step advances, the callback receives (null, backend,
    request) with the request as the steps left it; the first step that
    answers with an error ends the run, no later step is invoked, and
    the callback receives that error alone. *)
Theorem runMethod_action_list_then_global_list
  (self : Middleware) (a : string) (request : Request) (cb : RunCb) (s : State) :
  request !! "action" = Some (JStr a) ->
  inherited a = false ->
  let chain := default [] (methods self !! a) ++ default [] (methods self !! "") in
  (advances chain request = true ->
   runMethod self request (Some cb) s
   = bind (tell (invoked chain))
       (fun _ => cb JNull (Some (backend self, rewritten chain request))) s)
  /\ (forall pre m post err,
        chain = pre ++ m :: post ->
        advances pre request = true ->
        vetoes m (rewritten pre request) err ->
        runMethod self request (Some cb) s
        = bind (tell (invoked (pre ++ [m]))) (fun _ => cb err None) s)
  /\ (forall action m self',
        use action m self = Ok self' ->
        methods self' !! default "" action
        = Some (default [] (methods self !! default "" action) ++ [m])).
Proof.
  intros Ha Hown chain. split; [| split].
  - intros Hadv. rewrite (runMethod_unfold _ _ _ _ _ Ha Hown).
    apply next_advances, Hadv.
  - intros pre m post err Hchain Hadv Hveto.
    rewrite (runMethod_unfold _ _ _ _ _ Ha Hown). fold chain. rewrite Hchain.
    apply next_vetoed; assumption.
  - intros action m self' Huse. apply (use_appends _ _ _ _ Huse).
Qed.

(** C9: trigger returns to its caller with nothing run: the trace of
    the call is empty, the state is as before, and the run of the chain
    waits in the nextTick queue.  The callback is called by that queued
    closure, also when no middleware is registered for the action or for
    all actions (the action not being the name of a property the
    registry object inherits, for which that closure throws). *)
Theorem trigger_calls_back_on_a_later_turn
  (self : Middleware) (agent : jsval) (action : string)
  (collection docName : jsval) (request : option Request) (cb : RunCb)
  (s : State) :
  let req := buildRequest agent action collection docName request in
  (trigger self agent action collection docName request (Some cb) ;;
   emit (EvMark "trigger returned")) s
  = (Ok tt, s, [EvMark "trigger returned"],
     [MkTask (runMethod self req (Some cb))])
  /\ (inherited action = false ->
      default [] (methods self !! action) = [] ->
      methods self !! "" = Some [] ->
      forall s', runMethod self req (Some cb) s'
                 = cb JNull (Some (backend self, req)) s').
Proof.
  intros req. split; [reflexivity |].
  intros Hown Hact Hglobal s'.
  rewrite (runMethod_unfold _ action) by
    (first [apply buildRequest_action | exact Hown]).
  rewrite Hact, Hglobal. reflexivity.
Qed.

Lemma connect_queues self stream initialReq cb s :
  connect self stream initialReq cb s
  = (Ok tt, s, [],
     [MkTask (runMethod self
        (buildRequest thisAgent "connect" JNull JNull
           (Some (<["stream" := stream]> (<["initialReq" := initialReq]> ∅))))
        (Some (fun err _ =>
           (if negb (truthy err) then setConnectCalled true else ret tt) ;;
           cb [err])))]).
Proof. reflexivity. Qed.

(** C1: while [_connectCalled] is false every operation other than
    connect throws at once: the state is untouched, the trace is empty
    (no middleware, no backend call) and nothing is queued, so the next
    call throws again.  A connect whose chain is ended by an error calls
    back with that error and leaves the flag false. *)
Theorem operation_before_connect_throws (self : Middleware) (s : State) :
  connectCalled s = false ->
  (forall op cb, exists msg, invoke self op cb s = (Throw msg, s, [], []))
  /\ (forall stream initialReq,
        exists t,
          connect self stream initialReq deliver s = (Ok tt, s, [], [t])
          /\ forall pre m post err,
               let req := buildRequest thisAgent "connect" JNull JNull
                            (Some (<["stream" := stream]>
                                     (<["initialReq" := initialReq]> ∅))) in
               default [] (methods self !! "connect")
                 ++ default [] (methods self !! "") = pre ++ m :: post ->
               advances pre req = true ->
               vetoes m (rewritten pre req) err ->
               run_ticks 1 s [t]
               = (s, invoked (pre ++ [m]) ++ [EvCallback [err]], [])).
Proof.
  intros Hs. split.
  - intros op cb.
    destruct op; eexists;
      unfold invoke, fetch, bulkFetch, getOps, subscribe, bulkSubscribe,
        fetchAndSubscribe, submit, queryFetch, query, _trigger, bind,
        getConnectCalled;
      rewrite Hs; reflexivity.
  - intros stream initialReq. eexists. split; [apply connect_queues |].
    intros pre m post err req Hchain Hadv Hveto.
    unfold run_ticks.
    rewrite (runMethod_unfold _ "connect") by
      (first [apply buildRequest_action | reflexivity]).
    rewrite Hchain.
    rewrite (next_vetoed _ _ _ _ _ _ _ _ Hadv Hveto).
    destruct Hveto as [_ Htruthy].
    unfold bind, tell, deliver, emit, ret. rewrite Htruthy. simpl.
    rewrite app_nil_r. reflexivity.
Qed.

(** After a connect whose chain completes the flag is set, and an
    operation is then passed on to the dispatcher. *)
Lemma connect_completes self stream initialReq s :
  let req := buildRequest thisAgent "connect" JNull JNull
               (Some (<["stream" := stream]> (<["initialReq" := initialReq]> ∅))) in
  let chain := default [] (methods self !! "connect")
                 ++ default [] (methods self !! "") in
  advances chain req = true ->
  exists t,
    connect self stream initialReq deliver s = (Ok tt, s, [], [t])
    /\ run_ticks 1 s [t]
       = (mkState true (heap s), invoked chain ++ [EvCallback [JNull]], []).
Proof.
  intros req chain Hadv. eexists. split; [apply connect_queues |].
  unfold run_ticks.
  rewrite (runMethod_unfold _ "connect") by
      (first [apply buildRequest_action | reflexivity]).
  fold req chain. rewrite (next_advances _ _ _ _ _ Hadv).
  unfold bind, tell, deliver, emit, ret, setConnectCalled. simpl.
  rewrite app_nil_r. reflexivity.
Qed.

(** ** Filter chains *)

Lemma callFilter_unfold f collection docName data k s :
  callFilter f collection docName data k s
  = (emit (EvFilter (f_name f) collection docName data) ;;
     match f_run f collection docName data with
     | (data', Next err) => k err data'
     | (_, Silent) => ret tt
     end) s.
Proof. reflexivity. Qed.

Lemma runFilters_chainRun fs collection docName cb : forall data s,
  _runFilters fs collection docName data cb s
  = bind (tell (fst (chainRun fs collection docName data)))
      (fun _ =>
         match snd (chainRun fs collection docName data) with
         | Some (err, data') => cb err data'
         | None => ret tt
         end) s.
Proof.
  unfold _runFilters.
  induction fs as [| f rest IH]; intros data s.
  - simpl. symmetry. apply tell_nil.
  - simpl eachSeries. rewrite callFilter_unfold. simpl chainRun.
    destruct (f_run f collection docName data) as [data' [err |]].
    + cbv beta. destruct (truthy err) eqn:Herr; simpl fst; simpl snd.
      * unfold bind, emit, tell. reflexivity.
      * rewrite <- emit_tell. apply emit_cong. intros s'. apply IH.
    + simpl. unfold bind, emit, tell, ret. reflexivity.
Qed.

Lemma chainRun_accepts fs collection docName : forall data,
  accepts fs collection docName data = true ->
  chainRun fs collection docName data
  = (observed fs collection docName data,
     Some (JUndef, filtered fs collection docName data)).
Proof.
  induction fs as [| f rest IH]; intros data Hacc; [reflexivity |].
  simpl in *. destruct (f_run f collection docName data) as [data' [err |]];
    [| discriminate].
  apply andb_true_iff in Hacc as [Hfalsy Hrest].
  apply negb_true_iff in Hfalsy. rewrite Hfalsy.
  rewrite (IH _ Hrest). reflexivity.
Qed.

Lemma chainRun_rejects f post collection docName err : forall pre data,
  accepts pre collection docName data = true ->
  rejects f collection docName (filtered pre collection docName data) err ->
  chainRun (pre ++ f :: post) collection docName data
  = (observed (pre ++ [f]) collection docName data, Some (err, JNull)).
Proof.
  induction pre as [| p pre IH]; intros data Hacc [Hsig Htruthy].
  - simpl in *. destruct (f_run f collection docName data) as [data' sig].
    simpl in Hsig. subst sig. rewrite Htruthy. reflexivity.
  - simpl in *. destruct (f_run p collection docName data) as [data' [e |]];
      [| discriminate].
    apply andb_true_iff in Hacc as [Hfalsy Hrest].
    apply negb_true_iff in Hfalsy. rewrite Hfalsy.
    rewrite (IH _ Hrest (conj Hsig Htruthy)). reflexivity.
Qed.

Lemma observed_length fs collection docName : forall data,
  length (observed fs collection docName data) = length fs.
Proof.
  induction fs as [| f rest IH]; intros data; simpl; [| rewrite IH]; reflexivity.
Qed.

Lemma chainRun_only_filters fs collection docName : forall data,
  forallb isFilterEvent (fst (chainRun fs collection docName data)) = true.
Proof.
  induction fs as [| f rest IH]; intros data; [reflexivity |].
  simpl. destruct (f_run f collection docName data) as [data' [err |]].
  - destruct (truthy err); simpl; [reflexivity | apply IH].
  - reflexivity.
Qed.

(** C3: filter and filterOps append to their list, and the filters of
    a chain run one after the other in the order of the list, each on
    the data as the previous ones left it.  If all of
    them succeed the callback receives (undefined, data) with the data as
    changed in place; if filter k is the first to answer with an error,
    exactly the first k filters were invoked and the callback receives
    (error, null). *)
Theorem runFilters_stops_at_first_error
  (fs : list Filter) (collection docName data : jsval)
  (cb : jsval -> jsval -> M unit) (s : State) :
  (forall fn self,
     docFilters (filter fn self) = docFilters self ++ [fn]
     /\ opFilters (filterOps fn self) = opFilters self ++ [fn])
  /\
  (accepts fs collection docName data = true ->
   _runFilters fs collection docName data cb s
   = bind (tell (observed fs collection docName data))
       (fun _ => cb JUndef (filtered fs collection docName data)) s)
  /\ (forall pre f post err,
        fs = pre ++ f :: post ->
        accepts pre collection docName data = true ->
        rejects f collection docName (filtered pre collection docName data) err ->
        _runFilters fs collection docName data cb s
        = bind (tell (observed (pre ++ [f]) collection docName data))
            (fun _ => cb err JNull) s
        /\ length (observed (pre ++ [f]) collection docName data)
           = S (length pre)).
Proof.
  split; [intros fn self; split; reflexivity |]. split.
  - intros Hacc. rewrite runFilters_chainRun.
    rewrite (chainRun_accepts _ _ _ _ Hacc). reflexivity.
  - intros pre f post err -> Hacc Hrej. split.
    + rewrite runFilters_chainRun.
      rewrite (chainRun_rejects _ _ _ _ _ _ _ Hacc Hrej). reflexivity.
    + rewrite observed_length, length_app. simpl. lia.
Qed.

(** ** Wrapped operation streams *)

Lemma pushed_app tr1 tr2 : pushed (tr1 ++ tr2) = pushed tr1 ++ pushed tr2.
Proof.
  induction tr1 as [| e tr1 IH]; [reflexivity |].
  destruct e; simpl; rewrite IH; reflexivity.
Qed.

Lemma pushed_filter_events tr :
  forallb isFilterEvent tr = true -> pushed tr = [].
Proof.
  induction tr as [| e tr IH]; [reflexivity |].
  destruct e; simpl; try discriminate. exact IH.
Qed.

Lemma transform_unfold self collection docName stream data callback s :
  transform self collection docName stream data callback s
  = bind (tell (fst (chainRun (opFilters self) collection docName (JArr [data]))))
      (fun _ =>
         match snd (chainRun (opFilters self) collection docName (JArr [data])) with
         | Some (err, data') =>
             emit (EvPush (JWrapped collection docName stream)
                     (if truthy err then JObj [("error", err)]
                      else js_index data' 0)) ;;
             callback
         | None => ret tt
         end) s.
Proof.
  unfold transform, runOpFilters. rewrite runFilters_chainRun.
  apply tell_cong. intros s'.
  destruct (snd (chainRun (opFilters self) collection docName (JArr [data])))
    as [[err data'] |]; reflexivity.
Qed.

Lemma readable_clean chunks :
  Forall (fun c => endOfStream c = false) chunks -> readable chunks = chunks.
Proof.
  induction 1 as [| c rest Hc _ IH]; [reflexivity |].
  simpl. rewrite Hc, IH. reflexivity.
Qed.

Lemma readable_until_end chunks c rest :
  Forall (fun c => endOfStream c = false) chunks ->
  endOfStream c = true ->
  readable (chunks ++ c :: rest) = chunks.
Proof.
  intros Hclean Hend.
  induction Hclean as [| c' chunks Hc' _ IH]; simpl.
  - rewrite Hend. reflexivity.
  - rewrite Hc', IH. reflexivity.
Qed.

(** The source's chunks are handled to the end whatever the filters
    do: the pipe neither throws nor queues. *)
Lemma pipe_runs self collection docName stream events : forall s,
  exists out,
    pipe self collection docName stream events s = (Ok tt, s, out, []).
Proof.
  induction events as [| e rest IH]; intros s; [exists []; reflexivity |].
  simpl pipe. rewrite transform_unfold.
  destruct (chainRun (opFilters self) collection docName (JArr [e]))
    as [tr [[err data'] |]]; simpl.
  - destruct (IH s) as [out Hout]. eexists.
    unfold bind, tell, emit. simpl. rewrite Hout. reflexivity.
  - eexists. unfold bind, tell, ret. simpl. reflexivity.
Qed.

(** While the events are forwardable, each gives one chunk and the
    pipe goes on to the next. *)
Lemma pipe_forwardable_prefix self collection docName stream before :
  Forall (fun e => forwardable self collection docName e = true) before ->
  exists out1,
    (forall rest s,
       pipe self collection docName stream (before ++ rest) s
       = bind (tell out1)
           (fun _ => pipe self collection docName stream rest) s)
    /\ Forall2 (forwards self collection docName) before (pushed out1)
    /\ Forall (fun c => endOfStream c = false) (pushed out1).
Proof.
  induction 1 as [| e before He _ IH].
  - exists []. split; [| split; constructor].
    intros rest s. simpl app. symmetry. apply tell_nil.
  - destruct IH as (out1 & Hpipe & Hfw & Hclean).
    pose proof (chainRun_only_filters (opFilters self) collection docName
                  (JArr [e])) as Honly.
    unfold forwardable in He.
    destruct (chainRun (opFilters self) collection docName (JArr [e]))
      as [tr [[err data'] |]] eqn:Hrun; simpl in He, Honly; [| discriminate].
    exists (tr ++ EvPush (JWrapped collection docName stream)
                    (if truthy err then JObj [("error", err)]
                     else js_index data' 0) :: out1).
    split; [| split].
    + intros rest s. simpl app. simpl pipe. rewrite transform_unfold, Hrun.
      simpl fst. simpl snd. unfold bind at 1 2, tell at 1, emit.
      rewrite Hpipe.
      unfold bind, tell.
      destruct (pipe self collection docName stream rest s)
        as [[[r s'] o] q]. simpl. rewrite <- !app_assoc. reflexivity.
    + rewrite pushed_app, (pushed_filter_events _ Honly). simpl.
      constructor; [| exact Hfw].
      unfold forwards. rewrite Hrun. simpl.
      destruct (truthy err); reflexivity.
    + rewrite pushed_app, (pushed_filter_events _ Honly). simpl.
      constructor; [| exact Hclean].
      destruct (truthy err); [reflexivity |].
      simpl in He. apply negb_true_iff in He. exact He.
Qed.


(** Where the filters accept an event and leave null (or undefined) as
    element 0, [push] gets the end-of-stream marker: the reader gets
    the chunks of the events before it and nothing for that event or
    any later one. *)
Lemma wrapped_stream_ends_at_null_chunk
  (self : Middleware) (collection docName stream : jsval)
  (before : list jsval) (e : jsval) (after : list jsval) (err data' : jsval)
  (s : State) :
  Forall (fun e' => forwardable self collection docName e' = true) before ->
  snd (chainRun (opFilters self) collection docName (JArr [e]))
  = Some (err, data') ->
  truthy err = false ->
  endOfStream (js_index data' 0) = true ->
  exists out,
    emits self (wrapOpStream self collection docName stream)
      (before ++ e :: after) s
    = (Ok tt, s, out, [])
    /\ Forall2 (forwards self collection docName) before
         (readable (pushed out)).
Proof.
  intros Hbefore Hrun Herr Hend.
  destruct (pipe_forwardable_prefix self collection docName stream before
              Hbefore) as (out1 & Hpipe & Hfw & Hclean).
  destruct (pipe_runs self collection docName stream after s) as [out2 Hafter].
  pose proof (chainRun_only_filters (opFilters self) collection docName
                (JArr [e])) as Honly.
  destruct (chainRun (opFilters self) collection docName (JArr [e]))
    as [tr ans] eqn:Hchain. simpl in Hrun, Honly. subst ans.
  exists (out1 ++ tr ++ EvPush (JWrapped collection docName stream)
                         (js_index data' 0) :: out2).
  unfold wrapOpStream, emits. split.
  - rewrite Hpipe. simpl pipe. unfold bind at 1, tell at 1.
    rewrite transform_unfold, Hchain. simpl fst. simpl snd.
    unfold bind, tell, emit. simpl. rewrite Herr, Hafter. simpl.
    rewrite <- ?app_assoc. reflexivity.
  - rewrite !pushed_app, (pushed_filter_events _ Honly). simpl.
    rewrite (readable_until_end _ _ _ Hclean Hend). exact Hfw.
Qed.

(** A filter that blanks the first operation: the reader gets nothing,
    not even the legitimate operation that follows. *)
Lemma blanked_operation_ends_stream :
  exists out,
    emits blanking
      (wrapOpStream blanking (JStr "users") (JStr "mario") (JRef "source"))
      [JObj [("op", JStr "cheat")]; JObj [("op", JStr "insert")]] connected
    = (Ok tt, connected, out, [])
    /\ readable (pushed out) = [].
Proof.
  destruct (wrapped_stream_ends_at_null_chunk blanking (JStr "users")
              (JStr "mario") (JRef "source") [] (JObj [("op", JStr "cheat")])
              [JObj [("op", JStr "insert")]] JUndef (JArr [JNull]) connected
              ltac:(constructor) eq_refl eq_refl eq_refl) as (out & Hrun & Hfw).
  exists out. split; [exact Hrun |].
  inversion Hfw. reflexivity.
Qed.

(** C7 as the code has it: every call of destroy() on the wrapper calls
    destroy() on the source once more; n calls reach the source n
    times. *)
Theorem destroy_reaches_source_on_every_call
  (self : Middleware) (collection docName stream : jsval) (n : nat) (s : State) :
  times n (destroyOf (wrapOpStream self collection docName stream)) s
  = (Ok tt, s, repeat (EvDestroy stream) n, [])
  /\ destroys (repeat (EvDestroy stream) n) = n.
Proof.
  split.
  - assert (forall s', destroyOf (wrapOpStream self collection docName stream) s'
                        = (Ok tt, s', [EvDestroy stream], [])) as Hcall
      by reflexivity.
    generalize dependent (destroyOf (wrapOpStream self collection docName stream)).
    intros m Hcall.
    induction n as [| n IH]; [reflexivity |].
    simpl. unfold bind. rewrite Hcall, IH. reflexivity.
  - induction n as [| n IH]; simpl; [| rewrite IH]; reflexivity.
Qed.

(** ** Operations of a connected agent *)

Lemma trigger_connected self action collection docName request cb s :
  connectCalled s = true ->
  _trigger self action collection docName request cb s
  = (Ok tt, s, [],
     [MkTask (runMethod self
                (buildRequest thisAgent action collection docName request) cb)]).
Proof.
  intros Hs. unfold _trigger, bind, getConnectCalled. rewrite Hs.
  simpl negb. rewrite andb_false_r. reflexivity.
Qed.

Lemma dispatched self action collection docName request cb k s :
  let req := buildRequest thisAgent action collection docName request in
  let chain := default [] (methods self !! action)
                 ++ default [] (methods self !! "") in
  inherited action = false ->
  advances chain req = true ->
  runMethod self req (Some (onTriggered cb k)) s
  = bind (tell (invoked chain))
      (fun _ => k (backend self) (rewritten chain req)) s.
Proof.
  intros req chain Hown Hadv.
  rewrite (runMethod_unfold _ action) by
      (first [apply buildRequest_action | exact Hown]).
  fold chain. rewrite (next_advances _ _ _ _ _ Hadv). reflexivity.
Qed.

Lemma run_ticks_one (f : M unit) s s1 o1 q :
  f s = (Ok tt, s1, o1, q) -> run_ticks 1 s [MkTask f] = (s1, o1, q).
Proof.
  intros Hf. simpl. rewrite Hf. rewrite app_nil_r. reflexivity.
Qed.

Lemma invoked_no_filter_event ms : existsb isFilterEvent (invoked ms) = false.
Proof. induction ms as [| m ms IH]; [reflexivity | exact IH]. Qed.

(** C10: in a fetch whose chain and backend call succeed, a backend
    answer without a snapshot goes straight to the caller as (null,
    data): the trace holds no doc filter invocation.  Whenever a doc
    filter is invoked during a fetch, the backend did return a
    snapshot. *)
Theorem fetch_without_snapshot_skips_doc_filters
  (self : Middleware) (collection docName : jsval) (answer : list jsval)
  (s : State) :
  let req := buildRequest thisAgent "fetch" collection docName None in
  let chain := default [] (methods self !! "fetch")
                 ++ default [] (methods self !! "") in
  let args := [field (rewritten chain req) "collection";
               field (rewritten chain req) "docName"] in
  connectCalled s = true ->
  advances chain req = true ->
  backend self "fetch" args = Some answer ->
  truthy (arg 0 answer) = false ->
  exists t,
    fetch self collection docName deliver s = (Ok tt, s, [], [t])
    /\ (truthy (arg 1 answer) = false ->
        run_ticks 1 s [t]
        = (s, invoked chain
              ++ [EvBackend "fetch" args; EvCallback [JNull; arg 1 answer]], []))
    /\ (forall s' out q,
          run_ticks 1 s [t] = (s', out, q) ->
          existsb isFilterEvent out = true ->
          truthy (arg 1 answer) = true).
Proof.
  intros req chain args Hs Hadv Hanswer Herr.
  eexists. split; [apply trigger_connected, Hs |].
  assert (truthy (arg 1 answer) = false ->
          run_ticks 1 s
            [MkTask (runMethod self req
               (Some (onTriggered deliver (fun backend action =>
                  let collection := field action "collection" in
                  let docName := field action "docName" in
                  callBackend backend "fetch" [collection; docName] (fun r =>
                    let err := arg 0 r in
                    let data := arg 1 r in
                    if truthy err then deliver [err]
                    else if truthy data then
                      runDocFilters self collection docName data
                        (fun e d => deliver [e; d])
                    else deliver [JNull; data])))))]
          = (s, invoked chain
                ++ [EvBackend "fetch" args; EvCallback [JNull; arg 1 answer]], []))
    as Hnil.
  { intros Hdata. apply run_ticks_one.
    unfold req. rewrite dispatched by (first [exact Hadv | reflexivity]).
    fold req chain. cbv zeta. fold args.
    unfold callBackend, bind, tell, emit, deliver.
    rewrite Hanswer, Herr, Hdata. reflexivity. }
  split; [exact Hnil |].
  intros s' out q Hrun Hfilter.
  destruct (truthy (arg 1 answer)) eqn:Hdata; [reflexivity |].
  pose proof (eq_trans (eq_sym Hrun) (Hnil eq_refl)) as Heq.
  injection Heq as _ -> _.
  rewrite existsb_app, invoked_no_filter_event in Hfilter. discriminate.
Qed.

Lemma requestsEmpty_all_empty entries :
  Forall (fun entry : string * jsval => snd entry = JArr []) entries ->
  requestsEmpty entries = Ok true.
Proof.
  induction 1 as [| [cName docs] rest Hdocs _ IH]; [reflexivity |].
  simpl in *. subst docs. exact IH.
Qed.

Lemma requestsEmpty_some_docs entries :
  Forall (fun entry : string * jsval => exists docs, snd entry = JArr docs) entries ->
  Exists (fun entry : string * jsval => snd entry <> JArr []) entries ->
  requestsEmpty entries = Ok false.
Proof.
  induction 1 as [| [cName docs] rest [l Hl] _ IH]; intros Hex.
  - inversion Hex.
  - simpl in *. subst docs. destruct l as [| x l]; [| reflexivity].
    simpl. apply IH. inversion Hex as [? ? Hhd | ? ? Htl]; subst;
      [contradiction | exact Htl].
Qed.

Lemma run_ticks_one_trace (f : M unit) s :
  exists s' q, run_ticks 1 s [MkTask f] = (s', traceOf f s, q).
Proof.
  unfold traceOf. simpl. destruct (f s) as [[[[[] | msg] s1] o1] q1]; simpl.
  - rewrite app_nil_r. eauto.
  - eauto.
Qed.

Lemma traceOf_tell {A} es (c : M A) s :
  traceOf (bind (tell es) (fun _ => c)) s = es ++ traceOf c s.
Proof.
  unfold traceOf, bind, tell. destruct (c s) as [[[r s'] o] q]. reflexivity.
Qed.

Lemma traceOf_emit {A} e (c : M A) s :
  traceOf (emit e ;; c) s = e :: traceOf c s.
Proof.
  unfold traceOf, bind, emit. destruct (c s) as [[[r s'] o] q]. reflexivity.
Qed.

Lemma traceOf_liftR {A B} (a : A) (k : A -> M B) s :
  traceOf (bind (liftR (Ok a)) k) s = traceOf (k a) s.
Proof.
  unfold traceOf, bind, liftR. destruct (k a s) as [[[r s'] o] q]. reflexivity.
Qed.

(** C8: in a bulkFetch of a connected agent whose chain completes, the
    request map is read back from the request.  If every collection of
    it maps to an empty list, the caller receives (null, {}) and the
    trace holds no backend call; if some collection maps to a non-empty
    list, backend.bulkFetch is called with the map. *)
Theorem bulkFetch_empty_requests_skip_backend
  (self : Middleware) (requests : jsval) (s : State) :
  let req := buildRequest thisAgent "bulk fetch" JNull JNull
               (Some (<["requests" := requests]> ∅)) in
  let chain := default [] (methods self !! "bulk fetch")
                 ++ default [] (methods self !! "") in
  let requests' := field (rewritten chain req) "requests" in
  connectCalled s = true ->
  advances chain req = true ->
  Forall (fun entry => exists docs, snd entry = JArr docs) (js_entries requests') ->
  exists t,
    bulkFetch self requests deliver s = (Ok tt, s, [], [t])
    /\ (Forall (fun entry => snd entry = JArr []) (js_entries requests') ->
        run_ticks 1 s [t]
        = (s, invoked chain ++ [EvCallback [JNull; JObj []]], []))
    /\ (Exists (fun entry => snd entry <> JArr []) (js_entries requests') ->
        exists s' tail q,
          run_ticks 1 s [t]
          = (s', invoked chain ++ EvBackend "bulkFetch" [requests'] :: tail, q)).
Proof.
  intros req chain requests' Hs Hadv Harrays.
  eexists. split; [apply trigger_connected, Hs |]. split.
  - intros Hempty. apply run_ticks_one.
    unfold req. rewrite dispatched by (first [exact Hadv | reflexivity]).
    fold req chain. cbv zeta. fold requests'.
    unfold bulkFetchRequestsEmpty.
    rewrite (requestsEmpty_all_empty _ Hempty).
    unfold bind, tell, liftR, deliver, emit. reflexivity.
  - intros Hsome.
    match goal with
    | |- context [run_ticks 1 s [MkTask ?f]] =>
        destruct (run_ticks_one_trace f s) as (s' & q & Hrun)
    end.
    exists s'. eexists. exists q. rewrite Hrun. f_equal. f_equal.
    etransitivity.
    { unfold traceOf, req.
      rewrite dispatched by (first [exact Hadv | reflexivity]). reflexivity. }
    fold req chain. cbv zeta. fold requests'.
    match goal with
    | |- snd (fst (?m s)) = _ => change (snd (fst (m s))) with (traceOf m s)
    end.
    rewrite traceOf_tell. f_equal.
    unfold bulkFetchRequestsEmpty.
    rewrite (requestsEmpty_some_docs _ Harrays Hsome).
    rewrite traceOf_liftR. unfold callBackend. rewrite traceOf_emit.
    reflexivity.
Qed.

(** ** Bulk fan-out *)

Lemma load_work c h0 w l d :
  load (length h0) (frame c h0 w l d) = (Ok w, frame c h0 w l d, [], []).
Proof.
  unfold load, frame. simpl. rewrite list_lookup_middle by reflexivity.
  reflexivity.
Qed.

Lemma load_live c h0 w l d :
  load (S (length h0)) (frame c h0 w l d) = (Ok l, frame c h0 w l d, [], []).
Proof.
  unfold load, frame. simpl. rewrite lookup_app_r by lia.
  replace (S (length h0) - length h0) with 1 by lia. reflexivity.
Qed.

Lemma load_data c h0 w l d :
  load (S (S (length h0))) (frame c h0 w l d) = (Ok d, frame c h0 w l d, [], []).
Proof.
  unfold load, frame. simpl. rewrite lookup_app_r by lia.
  replace (S (S (length h0)) - length h0) with 2 by lia. reflexivity.
Qed.

Lemma store_work c h0 w l d v :
  store (length h0) v (frame c h0 w l d) = (Ok tt, frame c h0 v l d, [], []).
Proof.
  unfold store, frame. simpl. rewrite insert_app_r_alt by lia.
  replace (length h0 - length h0) with 0 by lia. reflexivity.
Qed.

Lemma store_live c h0 w l d v :
  store (S (length h0)) v (frame c h0 w l d) = (Ok tt, frame c h0 w v d, [], []).
Proof.
  unfold store, frame. simpl. rewrite insert_app_r_alt by lia.
  replace (S (length h0) - length h0) with 1 by lia. reflexivity.
Qed.

Lemma store_data c h0 w l d v :
  store (S (S (length h0))) v (frame c h0 w l d)
  = (Ok tt, frame c h0 w l v, [], []).
Proof.
  unfold store, frame. simpl. rewrite insert_app_r_alt by lia.
  replace (S (S (length h0)) - length h0) with 2 by lia. reflexivity.
Qed.

Lemma deliver_eq args s : deliver args s = (Ok tt, s, [EvCallback args], []).
Proof. reflexivity. Qed.

Ltac frame_step :=
  cbv beta iota;
  first [ rewrite deliver_eq | rewrite load_work | rewrite load_live | rewrite load_data
        | rewrite store_work | rewrite store_live | rewrite store_data ];
  cbv beta iota.

Lemma incr_frame c h0 w l d :
  incr (length h0) (frame c h0 (JNum w) l d)
  = (Ok tt, frame c h0 (JNum (w + 1)) l d, [], []).
Proof.
  unfold incr, bind. repeat frame_step. reflexivity.
Qed.

Lemma bulkDone_frame c h0 w l d :
  bulkDone (length h0) (S (length h0)) (S (S (length h0))) (Some deliver)
    (frame c h0 (JNum w) l d)
  = (Ok tt, frame c h0 (JNum (w - 1)) l d,
     (if (w - 1 =? 0)%Z && truthy l then [EvCallback [JNull; d]] else []), []).
Proof.
  unfold bulkDone, bind. repeat frame_step.
  change (js_add (JNum w) (-1)) with (JNum (w - 1)).
  change (js_is (JNum (w - 1)) 0) with (w - 1 =? 0)%Z.
  destruct ((w - 1 =? 0)%Z && truthy l).
  - frame_step. reflexivity.
  - reflexivity.
Qed.

Lemma bulkDocCallback_frame c h0 w l d cName docName err doc' :
  bulkDocCallback (length h0) (S (length h0)) (S (S (length h0))) (Some deliver)
    cName docName err doc' (frame c h0 (JNum w) l d)
  = if truthy err then
      (Ok tt, frame c h0 (JNum (w - 1)) (if truthy l then JNull else l) d,
       (if truthy l then [EvCallback [err]] else []), [])
    else
      let d' := js_set d cName (js_set (js_get d cName) docName doc') in
      (Ok tt, frame c h0 (JNum (w - 1)) l d',
       (if (w - 1 =? 0)%Z && truthy l then [EvCallback [JNull; d']] else []), []).
Proof.
  unfold bulkDocCallback, bind, ret, callCb.
  destruct (truthy err) eqn:Herr; cbv beta iota.
  - frame_step.
    destruct (truthy l) eqn:Hl; cbv beta iota delta [andb].
    + repeat frame_step. rewrite bulkDone_frame. simpl truthy.
      rewrite andb_false_r. reflexivity.
    + rewrite bulkDone_frame. rewrite Hl, andb_false_r. reflexivity.
  - repeat frame_step. cbv beta iota delta [andb].
    rewrite bulkDone_frame. reflexivity.
Qed.

Lemma forEach_cons_run {A} (x : A) rest (body : A -> M unit) s s1 o1 s2 o2 :
  body x s = (Ok tt, s1, o1, []) ->
  forEach rest body s1 = (Ok tt, s2, o2, []) ->
  forEach (x :: rest) body s = (Ok tt, s2, o1 ++ o2, []).
Proof.
  intros Hx Hrest. simpl. unfold bind. rewrite Hx, Hrest. reflexivity.
Qed.

Lemma callbacks_app tr1 tr2 :
  callbacks (tr1 ++ tr2) = callbacks tr1 ++ callbacks tr2.
Proof.
  induction tr1 as [| e tr1 IH]; [reflexivity |].
  destruct e; simpl; rewrite IH; reflexivity.
Qed.

Section BulkRun.

Variables (c : bool) (h0 : list jsval).

(** Once the callback variable is null nothing calls back. *)
Lemma bulk_run_consumed : forall sch w l d,
  truthy l = false ->
  exists w' l' d' out,
    forEach sch (frameStep h0) (frame c h0 (JNum w) l d)
    = (Ok tt, frame c h0 (JNum w') l' d', out, [])
    /\ callbacks out = [].
Proof.
  induction sch as [| st rest IH]; intros w l d Hl.
  - exists w, l, d, []. split; reflexivity.
  - destruct st as [| name cl dn doc | cName docName err doc' |].
    + destruct (IH (w + 1)%Z l d Hl) as (w' & l' & d' & out & Hrun & Hcb).
      exists w', l', d', ([] ++ out). split; [| exact Hcb].
      eapply forEach_cons_run; [apply incr_frame | exact Hrun].
    + destruct (IH w l d Hl) as (w' & l' & d' & out & Hrun & Hcb).
      exists w', l', d', ([EvFilter name cl dn doc] ++ out).
      split; [| exact Hcb].
      eapply forEach_cons_run; [reflexivity | exact Hrun].
    + pose proof (bulkDocCallback_frame c h0 w l d cName docName err doc')
        as Hstep.
      rewrite Hl, andb_false_r in Hstep. cbv zeta in Hstep.
      destruct (truthy err).
      * destruct (IH (w - 1)%Z l d Hl) as (w' & l' & d' & out & Hrun & Hcb).
        exists w', l', d', ([] ++ out). split; [| exact Hcb].
        eapply forEach_cons_run; [exact Hstep | exact Hrun].
      * destruct (IH (w - 1)%Z l
                    (js_set d cName (js_set (js_get d cName) docName doc')) Hl)
          as (w' & l' & d' & out & Hrun & Hcb).
        exists w', l', d', ([] ++ out). split; [| exact Hcb].
        eapply forEach_cons_run; [exact Hstep | exact Hrun].
    + pose proof (bulkDone_frame c h0 w l d) as Hstep.
      rewrite Hl, andb_false_r in Hstep.
      destruct (IH (w - 1)%Z l d Hl) as (w' & l' & d' & out & Hrun & Hcb).
      exists w', l', d', ([] ++ out). split; [| exact Hcb].
      eapply forEach_cons_run; [exact Hstep | exact Hrun].
Qed.

(** Once every invocation has called back and the loop is over, only
    filter invocations can follow. *)
Lemma bulk_run_settled : forall sch n w l d,
  wellFormed n n true sch = true ->
  (exists out,
     forEach sch (frameStep h0) (frame c h0 w l d) = (Ok tt, frame c h0 w l d, out, [])
     /\ callbacks out = [])
  /\ firstError sch = None /\ written sch d = d
  /\ countStarted sch = 0 /\ countCompleted sch = 0.
Proof.
  induction sch as [| st rest IH]; intros n w l d Hwf.
  - split; [exists []; split; reflexivity | repeat split].
  - destruct st as [| name cl dn doc | cName docName err doc' |];
      simpl in Hwf; try discriminate.
    + destruct (IH n w l d Hwf) as ((out & Hrun & Hcb) & Hrest).
      split; [| exact Hrest].
      exists ([EvFilter name cl dn doc] ++ out). split; [| exact Hcb].
      eapply forEach_cons_run; [reflexivity | exact Hrun].
    + rewrite Nat.ltb_irrefl in Hwf. discriminate.
Qed.

Lemma bulk_run_live : forall sch st cp en l d,
  wellFormed st cp en sch = true ->
  cp <= st ->
  truthy l = true ->
  let w := (1 + Z.of_nat st - Z.of_nat cp - (if en then 1 else 0))%Z in
  w <> 0%Z ->
  exists w' l' d' out,
    forEach sch (frameStep h0) (frame c h0 (JNum w) l d)
    = (Ok tt, frame c h0 (JNum w') l' d', out, [])
    /\ callbacks out
       = match firstError sch with
         | Some e => [[e]]
         | None =>
             if Nat.eqb (st + countStarted sch) (cp + countCompleted sch)
                && (en || loopEnded sch)
             then [[JNull; written sch d]]
             else []
         end.
Proof.
  induction sch as [| s rest IH]; intros st cp en l d Hwf Hle Hl w Hw.
  - exists w, l, d, []. split; [reflexivity |]. simpl.
    rewrite !Nat.add_0_r, orb_false_r.
    destruct (Nat.eqb_spec st cp) as [-> | Hne]; [| reflexivity].
    destruct en; [| reflexivity]. exfalso. apply Hw. unfold w. lia.
  - destruct s as [| name cl dn doc | cName docName err doc' |];
      simpl in Hwf.
    + (* the loop starts one more document *)
      apply andb_true_iff in Hwf as [Hen Hwf].
      apply negb_true_iff in Hen. subst en.
      destruct (IH (S st) cp false l d Hwf ltac:(lia) Hl ltac:(lia))
        as (w' & l' & d' & out & Hrun & Hcb).
      exists w', l', d', ([] ++ out). split.
      * eapply forEach_cons_run; [apply incr_frame |].
        replace (w + 1)%Z
          with (1 + Z.of_nat (S st) - Z.of_nat cp - 0)%Z by (unfold w; lia).
        exact Hrun.
      * simpl. rewrite Hcb. simpl.
        replace (st + S (countStarted rest)) with (S st + countStarted rest)
          by lia.
        reflexivity.
    + (* a filter is invoked *)
      destruct (IH st cp en l d Hwf Hle Hl Hw)
        as (w' & l' & d' & out & Hrun & Hcb).
      exists w', l', d', ([EvFilter name cl dn doc] ++ out). split.
      * eapply forEach_cons_run; [reflexivity | exact Hrun].
      * simpl. exact Hcb.
    + (* the filters of a document call back *)
      apply andb_true_iff in Hwf as [Hlt Hwf]. apply Nat.ltb_lt in Hlt.
      pose proof (bulkDocCallback_frame c h0 w l d cName docName err doc')
        as Hstep.
      rewrite Hl in Hstep. cbv zeta in Hstep. simpl firstError.
      simpl written. simpl countStarted. simpl countCompleted.
      simpl loopEnded.
      destruct (truthy err) eqn:Herr.
      * destruct (bulk_run_consumed rest (w - 1)%Z JNull d eq_refl)
          as (w' & l' & d' & out & Hrun & Hcb).
        exists w', l', d', ([EvCallback [err]] ++ out). split.
        -- eapply forEach_cons_run; [exact Hstep | exact Hrun].
        -- rewrite callbacks_app, Hcb. reflexivity.
      * rewrite andb_true_r in Hstep.
        destruct (Z.eqb_spec (w - 1) 0) as [Hzero | Hnz].
        -- assert (en = true /\ st = S cp) as [-> ->]
             by (unfold w in Hzero; destruct en; split; (reflexivity || lia)).
           destruct (bulk_run_settled rest (S cp) (JNum (w - 1)) l
                       (js_set d cName (js_set (js_get d cName) docName doc'))
                       Hwf)
             as ((out & Hrun & Hcb) & Hfe & Hwr & Hcs & Hcc).
           eexists _, _, _, (_ ++ out). split.
           ++ eapply forEach_cons_run; [exact Hstep | exact Hrun].
           ++ rewrite callbacks_app, Hcb, Hfe, Hwr, Hcs, Hcc. simpl.
              replace (cp + 0) with cp by lia.
              replace (cp + 1) with (S cp) by lia.
              rewrite Nat.eqb_refl. reflexivity.
        -- destruct (IH st (S cp) en l
                       (js_set d cName (js_set (js_get d cName) docName doc'))
                       Hwf ltac:(lia) Hl ltac:(lia))
             as (w' & l' & d' & out & Hrun & Hcb).
           exists w', l', d', ([] ++ out). split.
           ++ eapply forEach_cons_run; [exact Hstep |].
              replace (w - 1)%Z
                with (1 + Z.of_nat st - Z.of_nat (S cp)
                      - (if en then 1 else 0))%Z by (unfold w; lia).
              exact Hrun.
           ++ simpl. rewrite Hcb.
              replace (cp + S (countCompleted rest))
                with (S cp + countCompleted rest) by lia.
              reflexivity.
    + (* the loop is over *)
      apply andb_true_iff in Hwf as [Hen Hwf].
      apply negb_true_iff in Hen. subst en.
      pose proof (bulkDone_frame c h0 w l d) as Hstep.
      rewrite Hl, andb_true_r in Hstep. simpl firstError. simpl written.
      simpl countStarted. simpl countCompleted. simpl loopEnded.
      rewrite orb_true_r, andb_true_r.
      destruct (Z.eqb_spec (w - 1) 0) as [Hzero | Hnz].
      * assert (st = cp) as -> by (unfold w in Hzero; lia).
        destruct (bulk_run_settled rest cp (JNum (w - 1)) l d Hwf)
          as ((out & Hrun & Hcb) & Hfe & Hwr & Hcs & Hcc).
        eexists _, _, _, (_ ++ out). split.
        -- eapply forEach_cons_run; [exact Hstep | exact Hrun].
        -- rewrite callbacks_app, Hcb, Hfe, Hwr, Hcs, Hcc. simpl.
           rewrite Nat.eqb_refl. reflexivity.
      * destruct (IH st cp true l d Hwf Hle Hl ltac:(lia))
          as (w' & l' & d' & out & Hrun & Hcb).
        exists w', l', d', ([] ++ out). split.
        -- eapply forEach_cons_run; [exact Hstep |].
           replace (w - 1)%Z
             with (1 + Z.of_nat st - Z.of_nat cp - 1)%Z by (unfold w; lia).
           exact Hrun.
        -- simpl. rewrite Hcb. simpl. rewrite andb_true_r. reflexivity.
Qed.

End BulkRun.

Lemma bind_assoc_pt {A B C} (m : M A) (k : A -> M B) (h : B -> M C) s :
  bind (bind m k) h s = bind m (fun a => bind (k a) h) s.
Proof.
  unfold bind. destruct (m s) as [[[[a | msg] s1] o1] q1]; [| reflexivity].
  destruct (k a s1) as [[[[b | msg] s2] o2] q2]; [| reflexivity].
  destruct (h b s2) as [[[r s3] o3] q3]. rewrite !app_assoc. reflexivity.
Qed.

Lemma bind_cong_pt {A B} (m : M A) (k1 k2 : A -> M B) s :
  (forall a s', k1 a s' = k2 a s') -> bind m k1 s = bind m k2 s.
Proof.
  intros H. unfold bind. destruct (m s) as [[[[a | msg] s1] o1] q1];
    [rewrite H |]; reflexivity.
Qed.

Lemma bind_cong_l {A B} (m1 m2 : M A) (k : A -> M B) s :
  m1 s = m2 s -> bind m1 k s = bind m2 k s.
Proof. intros H. unfold bind. rewrite H. reflexivity. Qed.

Lemma bind_cong2 {A B} (m1 m2 : M A) (k1 k2 : A -> M B) s :
  m1 s = m2 s -> (forall a s', k1 a s' = k2 a s') -> bind m1 k1 s = bind m2 k2 s.
Proof.
  intros Hm Hk. rewrite (bind_cong_l _ _ _ _ Hm). apply bind_cong_pt, Hk.
Qed.

Lemma bind_ret_r (m : M unit) s : bind m (fun _ => ret tt) s = m s.
Proof.
  unfold bind, ret. destruct (m s) as [[[[[] | msg] s1] o1] q1];
    rewrite ?app_nil_r; reflexivity.
Qed.

Lemma bind_ret_l {A} (m : M A) s : bind (ret tt) (fun _ => m) s = m s.
Proof.
  unfold bind, ret. destruct (m s) as [[[r s1] o1] q1]. reflexivity.
Qed.

Lemma forEach_app {A} (l1 l2 : list A) (body : A -> M unit) : forall s,
  forEach (l1 ++ l2) body s
  = bind (forEach l1 body) (fun _ => forEach l2 body) s.
Proof.
  induction l1 as [| x l1 IH]; intros s.
  - simpl. symmetry. apply bind_ret_l.
  - simpl. rewrite bind_assoc_pt. apply bind_cong_pt. intros _ s'. apply IH.
Qed.

Lemma forEach_ext {A} (l : list A) (body1 body2 : A -> M unit) :
  (forall x s, body1 x s = body2 x s) ->
  forall s, forEach l body1 s = forEach l body2 s.
Proof.
  intros H. induction l as [| x l IH]; intros s; [reflexivity |].
  simpl. unfold bind. rewrite H.
  destruct (body2 x s) as [[[[a | msg] s1] o1] q1]; [rewrite IH |]; reflexivity.
Qed.

Lemma forEach_flat_map {A B} (l : list A) (f : A -> list B) (body : B -> M unit) :
  forall s,
  forEach l (fun x => forEach (f x) body) s = forEach (flat_map f l) body s.
Proof.
  induction l as [| x l IH]; intros s; [reflexivity |].
  simpl. rewrite forEach_app. apply bind_cong_pt. intros _ s'. apply IH.
Qed.

Lemma forEach_asSteps work live data cb tr : forall s,
  forallb isFilterEvent tr = true ->
  forEach (asSteps tr) (bulkStep work live data cb) s = tell tr s.
Proof.
  induction tr as [| e tr IH]; intros s Honly; [reflexivity |].
  destruct e; simpl in Honly; try discriminate.
  simpl. unfold bind, emit. rewrite (IH _ Honly). reflexivity.
Qed.

Lemma doc_run self work live data cb cName docName doc s :
  (incr work ;;
   runDocFilters self (JStr cName) (JStr docName) doc
     (bulkDocCallback work live data cb cName docName)) s
  = forEach (docSchedule self cName docName doc) (bulkStep work live data cb) s.
Proof.
  unfold docSchedule. simpl forEach. apply bind_cong_pt. intros _ s'.
  unfold runDocFilters. rewrite runFilters_chainRun, forEach_app.
  pose proof (chainRun_only_filters (docFilters self) (JStr cName)
                (JStr docName) doc) as Honly.
  destruct (chainRun (docFilters self) (JStr cName) (JStr docName) doc)
    as [tr ans]. simpl fst in *. simpl snd.
  symmetry. etransitivity.
  { apply bind_cong_l. apply forEach_asSteps. exact Honly. }
  apply bind_cong_pt. intros _ s''. destruct ans as [[err doc'] |].
  - simpl forEach. apply bind_ret_r.
  - reflexivity.
Qed.

Lemma alloc_bind {A} v (k : nat -> M A) c h :
  bind (alloc v) k (mkState c h) = k (length h) (mkState c (h ++ [v])).
Proof.
  unfold bind, alloc. simpl.
  destruct (k (length h) (mkState c (h ++ [v]))) as [[[r s1] o1] q1].
  reflexivity.
Qed.

Lemma runBulkDocFilters_sync self data c h0 :
  runBulkDocFilters self data (Some deliver) (mkState c h0)
  = forEach (syncSchedule self data)
      (bulkStep (length h0) (S (length h0)) (S (S (length h0))) (Some deliver))
      (frame c h0 (JNum 1) (JBool true) data).
Proof.
  unfold runBulkDocFilters, syncSchedule.
  rewrite !alloc_bind. rewrite !length_app. simpl length.
  replace (length h0 + 1) with (S (length h0)) by lia.
  replace (S (length h0) + 1) with (S (S (length h0))) by lia.
  replace (((h0 ++ [JNum 1]) ++ [JBool true]) ++ [data])
    with (h0 ++ [JNum 1; JBool true; data])
    by (rewrite <- !app_assoc; reflexivity).
  fold (frame c h0 (JNum 1) (JBool true) data).
  rewrite forEach_app. apply bind_cong2.
  - rewrite <- forEach_flat_map.
    apply forEach_ext. intros [cName docs] s.
    rewrite <- forEach_flat_map.
    apply forEach_ext. intros [docName doc] s'. apply doc_run.
  - intros _ s. symmetry. apply (bind_ret_r _ s).
Qed.

Lemma docSchedule_wellFormed self cName docName doc rest st cp :
  cp <= st ->
  (forall st' cp', cp' <= st' -> wellFormed st' cp' false rest = true) ->
  wellFormed st cp false (docSchedule self cName docName doc ++ rest) = true.
Proof.
  intros Hle Hrest. unfold docSchedule. simpl.
  generalize (fst (chainRun (docFilters self) (JStr cName) (JStr docName) doc)).
  intros tr. induction tr as [| e tr IH].
  - simpl. destruct (snd _) as [[err doc'] |]; simpl.
    + replace (Nat.ltb cp (S st)) with true by (symmetry; apply Nat.ltb_lt; lia).
      apply Hrest. lia.
    + apply Hrest. lia.
  - destruct e; simpl; exact IH.
Qed.

Lemma syncSchedule_wellFormed self data :
  wellFormed 0 0 false (syncSchedule self data) = true.
Proof.
  unfold syncSchedule.
  assert (forall st cp, cp <= st -> wellFormed st cp false [LoopEnded] = true)
    as Hend by reflexivity.
  revert Hend. generalize [LoopEnded]. intros tail Htail.
  assert (forall entries st cp, cp <= st ->
            wellFormed st cp false
              (flat_map (fun '(cName, docs) =>
                 flat_map (fun '(docName, doc) =>
                   docSchedule self cName docName doc) (js_entries docs))
                 entries ++ tail) = true) as Hall.
  { induction entries as [| [cName docs] entries IH]; intros st cp Hle.
    - apply Htail, Hle.
    - cbn [flat_map]. rewrite <- app_assoc.
      generalize (js_entries docs). intros ds. revert st cp Hle.
      induction ds as [| [docName doc] ds IHds]; intros st cp Hle.
      + apply IH, Hle.
      + cbn [flat_map]. rewrite <- app_assoc.
        apply docSchedule_wellFormed; [exact Hle | exact IHds]. }
  apply Hall. lia.
Qed.

(** The callback list of a run of runBulkDocFilters itself. *)
Lemma runBulkDocFilters_callbacks self data c h0 :
  callbacks (traceOf (runBulkDocFilters self data (Some deliver)) (mkState c h0))
  = match firstError (syncSchedule self data) with
    | Some e => [[e]]
    | None =>
        if settled (syncSchedule self data)
        then [[JNull; written (syncSchedule self data) data]]
        else []
    end.
Proof.
  unfold traceOf. rewrite runBulkDocFilters_sync.
  destruct (bulk_run_live c h0 (syncSchedule self data) 0 0 false (JBool true)
              data (syncSchedule_wellFormed self data) (le_n 0) eq_refl
              ltac:(discriminate))
    as (w' & l' & d' & out & Hrun & Hcb).
  change (forEach (syncSchedule self data)
            (bulkStep (length h0) (S (length h0)) (S (S (length h0)))
               (Some deliver))
            (frame c h0 (JNum 1) (JBool true) data)
          = (Ok tt, frame c h0 (JNum w') l' d', out, [])) in Hrun.
  rewrite Hrun. simpl. exact Hcb.
Qed.

(** C6: whatever the order in which the filter invocations of a bulk run
    start and call back, the caller's callback is called at most once:
    with the first error reported, by the invocation that reports it,
    and otherwise with (null, map) at the moment every started
    invocation has called back without error and the loop is over.
    Callbacks and errors that come after the first error call nothing.
    A run of runBulkDocFilters over filters that answer at once is one
    such order. *)
Theorem bulk_callback_fires_once
  (c : bool) (h0 : list jsval) (d0 : jsval) (sch : list BulkStep) :
  wellFormed 0 0 false sch = true ->
  (exists s' out,
     forEach sch (frameStep h0) (frame c h0 (JNum 1) (JBool true) d0)
     = (Ok tt, s', out, [])
     /\ callbacks out
        = match firstError sch with
          | Some e => [[e]]
          | None => if settled sch then [[JNull; written sch d0]] else []
          end)
  /\ (forall self,
        wellFormed 0 0 false (syncSchedule self d0) = true
        /\ runBulkDocFilters self d0 (Some deliver) (mkState c h0)
           = forEach (syncSchedule self d0) (frameStep h0)
               (frame c h0 (JNum 1) (JBool true) d0)).
Proof.
  intros Hwf. split.
  - destruct (bulk_run_live c h0 sch 0 0 false (JBool true) d0 Hwf
                (le_n 0) eq_refl ltac:(discriminate))
      as (w' & l' & d' & out & Hrun & Hcb).
    exists (frame c h0 (JNum w') l' d'), out. split; [exact Hrun |].
    rewrite Hcb. reflexivity.
  - intros self. split;
      [apply syncSchedule_wellFormed | apply runBulkDocFilters_sync].
Qed.

(** ** The scenarios, run *)

(** C4 on the code: a 'get ops' middleware sets the request's
    collection, docName, start and end to people, mario, 5 and 6.
    getOps then calls the backend with the rewritten collection and
    docName but with the caller's bounds 0 and 10, and runs the op
    filters with the caller's users and fred. *)
Theorem getOps_ignores_rewritten_bounds :
  let request := buildRequest thisAgent "get ops" (JStr "users") (JStr "fred")
                   (Some (<["start" := JNum 0]> (<["end" := JNum 10]> ∅))) in
  let request' := rewritten [redirect; audit] request in
  (field request' "collection", field request' "docName",
   field request' "start", field request' "end")
  = (JStr "people", JStr "mario", JNum 5, JNum 6)
  /\ exists t,
       getOps server (JStr "users") (JStr "fred") (JNum 0) (JNum 10) deliver
         connected
       = (Ok tt, connected, [], [t])
       /\ run_ticks 1 connected [t]
          = (connected,
             [EvMiddleware "redirect"; EvMiddleware "audit";
              EvBackend "getOps" [JStr "people"; JStr "mario"; JNum 0; JNum 10];
              EvFilter "cheat" (JStr "users") (JStr "fred") someOps;
              EvCallback [JUndef; someOps]],
             []).
Proof.
  split; [reflexivity |]. eexists. split; reflexivity.
Qed.

(** The same for queryFetch: a 'query' middleware replaces the options
    by {limit: 1}; the backend is called with the caller's
    {limit: 10}. *)
Theorem queryFetch_ignores_rewritten_options :
  let request := buildRequest thisAgent "query" (JStr "users") JNull
                   (Some (<["query" := JStr "q"]> (<["fetch" := JBool true]>
                     (<["options" := JObj [("limit", JNum 10)]]> ∅)))) in
  field (rewritten [limitQuery; audit] request) "options"
  = JObj [("limit", JNum 1)]
  /\ exists t,
       queryFetch server (JStr "users") (JStr "q") (JObj [("limit", JNum 10)])
         deliver connected
       = (Ok tt, connected, [], [t])
       /\ run_ticks 1 connected [t]
          = (connected,
             [EvMiddleware "limit"; EvMiddleware "audit";
              EvBackend "queryFetch"
                [JStr "users"; JStr "q"; JObj [("limit", JNum 10)]];
              EvCallback [JNull; JNull; JNull]],
             []).
Proof.
  split; [reflexivity |]. eexists. split; reflexivity.
Qed.

(** In general: the bounds given to the backend are the caller's. *)
Lemma getOps_backend_call self collection docName start end_ s :
  let req := buildRequest thisAgent "get ops" collection docName
               (Some (<["start" := start]> (<["end" := end_]> ∅))) in
  let chain := default [] (methods self !! "get ops")
                 ++ default [] (methods self !! "") in
  connectCalled s = true ->
  advances chain req = true ->
  exists t,
    getOps self collection docName start end_ deliver s = (Ok tt, s, [], [t])
    /\ exists s' tail q,
         run_ticks 1 s [t]
         = (s', invoked chain
                ++ EvBackend "getOps"
                     [field (rewritten chain req) "collection";
                      field (rewritten chain req) "docName"; start; end_]
                :: tail, q).
Proof.
  intros req chain Hs Hadv.
  eexists. split; [apply trigger_connected, Hs |].
  match goal with
  | |- context [run_ticks 1 s [MkTask ?f]] =>
      destruct (run_ticks_one_trace f s) as (s' & q & Hrun)
  end.
  exists s'. eexists. exists q.
  rewrite Hrun. f_equal. f_equal.
  etransitivity.
  { unfold traceOf, req.
    rewrite dispatched by (first [exact Hadv | reflexivity]). reflexivity. }
  fold req chain.
  match goal with
  | |- snd (fst (?m s)) = _ => change (snd (fst (m s))) with (traceOf m s)
  end.
  rewrite traceOf_tell. f_equal. unfold callBackend. rewrite traceOf_emit.
  reflexivity.
Qed.

(** C7 as stated fails: two calls of destroy() on a wrapper reach the
    source twice. *)
Lemma destroy_twice_reaches_source_twice :
  destroys
    (traceOf
       (times 2 (destroyOf (wrapOpStream server (JStr "users") (JStr "mario")
                              (JRef "source"))))
       connected)
  <> 1.
Proof. vm_compute. discriminate. Qed.

(** A new agent on a server whose connect middleware refuses: fetch
    throws, and the refused connect changes nothing. *)
Lemma operation_before_connect_throws_witness :
  connectCalled fresh = false
  /\ (exists msg,
        invoke guarded (OpFetch (JStr "people") (JStr "mario")) deliver fresh
        = (Throw msg, fresh, [], []))
  /\ (exists t,
        connect guarded JNull JNull deliver fresh = (Ok tt, fresh, [], [t])
        /\ run_ticks 1 fresh [t]
           = (fresh, [EvMiddleware "forbid"; EvCallback [JStr "Forbidden"]], [])).
Proof.
  pose proof (operation_before_connect_throws guarded fresh eq_refl)
    as [Hops Hconnect].
  split; [reflexivity | split].
  - apply Hops.
  - destruct (Hconnect JNull JNull) as (t & Hq & Hrun).
    exists t. split; [exact Hq |].
    apply (Hrun [] forbid [] (JStr "Forbidden"));
      [reflexivity | reflexivity | split; reflexivity].
Defined.

(** The 'get ops' list, then the list for all actions. *)
Lemma runMethod_action_list_then_global_list_witness :
  let request := buildRequest thisAgent "get ops" (JStr "users") (JStr "fred")
                   (Some (<["start" := JNum 0]> (<["end" := JNum 10]> ∅))) in
  request !! "action" = Some (JStr "get ops")
  /\ inherited "get ops" = false
  /\ runMethod server request (Some (fun err _ => deliver [err])) connected
     = (Ok tt, connected,
        [EvMiddleware "redirect"; EvMiddleware "audit"; EvCallback [JNull]], []).
Proof.
  intros request. split; [reflexivity | split; [reflexivity |]].
  destruct (runMethod_action_list_then_global_list server "get ops" request
              (fun err _ => deliver [err]) connected eq_refl eq_refl)
    as (Hall & _ & _).
  etransitivity; [apply Hall; reflexivity | reflexivity].
Defined.

(** A server without middleware: the queued closure calls back. *)
Lemma trigger_calls_back_on_a_later_turn_witness :
  inherited "fetch" = false
  /\ default [] (methods (newMiddleware storage) !! "fetch") = []
  /\ methods (newMiddleware storage) !! "" = Some []
  /\ run_ticks 1 connected
       [MkTask (runMethod (newMiddleware storage)
                  (buildRequest thisAgent "fetch" (JStr "users") (JStr "fred") None)
                  (Some (fun err _ => deliver [err])))]
     = (connected, [EvCallback [JNull]], []).
Proof.
  split; [reflexivity | split; [reflexivity | split; [reflexivity |]]].
  apply run_ticks_one.
  etransitivity; [| reflexivity].
  apply (proj2 (trigger_calls_back_on_a_later_turn (newMiddleware storage)
                  thisAgent "fetch" (JStr "users") (JStr "fred") None
                  (fun err _ => deliver [err]) connected)
           eq_refl eq_refl eq_refl connected).
Defined.

(** The header comment's fetch of peaches: the first filter refuses,
    the second is not invoked. *)
Lemma runFilters_stops_at_first_error_witness :
  accepts [] (JStr "people") (JStr "peaches") (JObj []) = true
  /\ rejects marioFilter (JStr "people") (JStr "peaches") (JObj [])
       (JStr "Document not found!")
  /\ _runFilters [marioFilter; marioFilter] (JStr "people") (JStr "peaches")
       (JObj []) (fun e d => deliver [e; d]) connected
     = (Ok tt, connected,
        [EvFilter "mario" (JStr "people") (JStr "peaches") (JObj []);
         EvCallback [JStr "Document not found!"; JNull]], []).
Proof.
  split; [reflexivity | split; [split; reflexivity |]].
  destruct (proj2 (proj2 (runFilters_stops_at_first_error
                            [marioFilter; marioFilter]
                            (JStr "people") (JStr "peaches") (JObj [])
                            (fun e d => deliver [e; d]) connected))
              [] marioFilter [marioFilter] (JStr "Document not found!")
              eq_refl eq_refl (conj eq_refl eq_refl)) as [Hrun _].
  etransitivity; [exact Hrun | reflexivity].
Defined.


(** Two documents whose filters call back after the loop, the failing
    one first. *)
Lemma bulk_callback_fires_once_witness :
  let sch := [Started; Started; LoopEnded;
              Completed "people" "peaches" (JStr "Document not found!") JNull;
              Completed "people" "mario" JUndef (JObj [])] in
  wellFormed 0 0 false sch = true
  /\ exists s' out,
       forEach sch (frameStep [])
         (frame true [] (JNum 1) (JBool true) (JObj []))
       = (Ok tt, s', out, [])
       /\ callbacks out = [[JStr "Document not found!"]].
Proof.
  intros sch. split; [reflexivity |].
  exact (proj1 (bulk_callback_fires_once true [] (JObj []) sch eq_refl)).
Defined.

(** bulkFetch({users: []}) *)
Lemma bulkFetch_empty_requests_skip_backend_witness :
  connectCalled connected = true
  /\ exists t,
       bulkFetch server (JObj [("users", JArr [])]) deliver connected
       = (Ok tt, connected, [], [t])
       /\ run_ticks 1 connected [t]
          = (connected, [EvMiddleware "audit"; EvCallback [JNull; JObj []]], []).
Proof.
  split; [reflexivity |].
  destruct (bulkFetch_empty_requests_skip_backend server
              (JObj [("users", JArr [])]) connected eq_refl eq_refl)
    as (t & Hq & Hempty & _).
  - vm_compute. constructor; [exists []; reflexivity | constructor].
  - exists t. split; [exact Hq |]. apply Hempty.
    vm_compute. constructor; [reflexivity | constructor].
Defined.

(** fetch of a document the storage does not have. *)
Lemma fetch_without_snapshot_skips_doc_filters_witness :
  connectCalled connected = true
  /\ storage "fetch" [JStr "users"; JStr "peaches"] = Some [JNull; JNull]
  /\ exists t,
       fetch server (JStr "users") (JStr "peaches") deliver connected
       = (Ok tt, connected, [], [t])
       /\ run_ticks 1 connected [t]
          = (connected,
             [EvMiddleware "audit";
              EvBackend "fetch" [JStr "users"; JStr "peaches"];
              EvCallback [JNull; JNull]], []).
Proof.
  split; [reflexivity | split; [reflexivity |]].
  destruct (fetch_without_snapshot_skips_doc_filters server (JStr "users")
              (JStr "peaches") [JNull; JNull] connected
              eq_refl eq_refl eq_refl eq_refl) as (t & Hq & Hnil & _).
  exists t. split; [exact Hq |]. apply Hnil. reflexivity.
Defined.

(** ** Further properties: the registry *)

(** use refuses the actions fetch and subscribe.  So a registry built
    from a new Middleware by use, filter and filterOps never holds a
    list for either, always holds the list for all actions, and a fetch
    or subscribe dispatch runs that list alone. *)
Theorem configured_registry_has_no_fetch_or_subscribe_list
  (self : Middleware) :
  Configured self ->
  (forall action m,
     action = Some "fetch" \/ action = Some "subscribe" ->
     exists msg, use action m self = Throw msg)
  /\ methods self !! "fetch" = None
  /\ methods self !! "subscribe" = None
  /\ is_Some (methods self !! "")
  /\ chainOf self "fetch" = default [] (methods self !! "")
  /\ chainOf self "subscribe" = default [] (methods self !! "").
Proof.
  intros Hcfg.
  assert (methods self !! "fetch" = None /\ methods self !! "subscribe" = None
          /\ is_Some (methods self !! "")) as (Hf & Hs & Hg).
  { induction Hcfg as [b | action m self self' _ IH Huse | fn self _ IH
                      | fn self _ IH]; try exact IH.
    - split; [reflexivity | split; [reflexivity | eexists; reflexivity]].
    - destruct IH as (Hf & Hs & Hg).
      pose proof (use_keeps_global _ _ _ _ Hg Huse) as Hg'.
      destruct (use_appends _ _ _ _ Huse) as (_ & Hother & _).
      unfold use in Huse.
      destruct (String.eqb_spec (default "" action) "fetch") as [Heq | Hnf];
        [discriminate |].
      destruct (String.eqb_spec (default "" action) "subscribe") as [Heq | Hns];
        [discriminate |].
      split; [| split; [| exact Hg']].
      + rewrite Hother by congruence. exact Hf.
      + rewrite Hother by congruence. exact Hs. }
  split; [| split; [exact Hf | split; [exact Hs | split; [exact Hg | split]]]].
  - intros action m [-> | ->]; eexists; reflexivity.
  - unfold chainOf. rewrite Hf. reflexivity.
  - unfold chainOf. rewrite Hs. reflexivity.
Qed.

(** A registry built through use holds no list under the name of an
    inherited property: use throws on such a name, and so does a
    dispatch whose action is one. *)
Lemma configured_registry_has_no_inherited_name self a :
  Configured self -> inherited a = true -> methods self !! a = None.
Proof.
  intros Hcfg Hinh.
  induction Hcfg as [b | action m self self' _ IH Huse | fn self _ IH
                    | fn self _ IH]; try exact IH.
  - simpl. apply lookup_singleton_ne. intros <-. discriminate Hinh.
  - destruct (decide (a = default "" action)) as [-> | Hne].
    + unfold use in Huse. destruct (_ || _); [discriminate |].
      rewrite IH, Hinh in Huse. discriminate.
    + destruct (use_appends _ _ _ _ Huse) as (_ & Hother & _).
      rewrite Hother by exact Hne. exact IH.
Qed.

(** ** Further properties: the operations and the dispatcher *)

Lemma opRequest_action op : opRequest op !! "action" = Some (JStr (opAction op)).
Proof. destruct op; apply buildRequest_action. Qed.

Lemma opAction_own op : inherited (opAction op) = false.
Proof. destruct op; reflexivity. Qed.

Lemma dispatch_advanced self a req cb k s :
  req !! "action" = Some (JStr a) ->
  inherited a = false ->
  advances (chainOf self a) req = true ->
  runMethod self req (Some (onTriggered cb k)) s
  = bind (tell (invoked (chainOf self a)))
      (fun _ => k (backend self) (rewritten (chainOf self a) req)) s.
Proof.
  intros Ha Hown Hadv. rewrite (runMethod_unfold _ a) by assumption.
  fold (chainOf self a). rewrite (next_advances _ _ _ _ _ Hadv). reflexivity.
Qed.

Lemma dispatch_vetoed self a req k pre m post err s :
  req !! "action" = Some (JStr a) ->
  inherited a = false ->
  chainOf self a = pre ++ m :: post ->
  advances pre req = true ->
  vetoes m (rewritten pre req) err ->
  runMethod self req (Some (onTriggered deliver k)) s
  = (Ok tt, s, invoked (pre ++ [m]) ++ [EvCallback [err]], []).
Proof.
  intros Ha Hown Hchain Hadv Hveto. rewrite (runMethod_unfold _ a) by assumption.
  fold (chainOf self a). rewrite Hchain.
  rewrite (next_vetoed _ _ _ _ _ _ _ _ Hadv Hveto).
  destruct Hveto as [_ Htruthy]. unfold onTriggered. rewrite Htruthy.
  reflexivity.
Qed.

Lemma dispatch_stalled self a req cb pre m post s :
  req !! "action" = Some (JStr a) ->
  inherited a = false ->
  chainOf self a = pre ++ m :: post ->
  advances pre req = true ->
  snd (mwStep m (rewritten pre req)) = Silent ->
  runMethod self req cb s = (Ok tt, s, invoked (pre ++ [m]), []).
Proof.
  intros Ha Hown Hchain Hadv Hsilent. rewrite (runMethod_unfold _ a) by assumption.
  fold (chainOf self a). rewrite Hchain. apply next_silent; assumption.
Qed.

Lemma invoke_connected self op s :
  connectCalled s = true ->
  exists k,
    invoke self op deliver s
    = (Ok tt, s, [],
       [MkTask (runMethod self (opRequest op) (Some (onTriggered deliver k)))]).
Proof.
  intros Hs. destruct op; eexists; apply trigger_connected, Hs.
Qed.

(** A middleware veto reaches the caller as it is: for each of the nine
    operations of a connected agent, if a step of the chain answers with
    an error, the caller's callback receives that error alone, after
    exactly the steps up to it, and the backend is not called. *)
Theorem middleware_veto_reaches_caller
  (self : Middleware) (op : Operation) (s : State)
  (pre : list MwFn) (m : MwFn) (post : list MwFn) (err : jsval) :
  connectCalled s = true ->
  chainOf self (opAction op) = pre ++ m :: post ->
  advances pre (opRequest op) = true ->
  vetoes m (rewritten pre (opRequest op)) err ->
  exists t,
    invoke self op deliver s = (Ok tt, s, [], [t])
    /\ run_ticks 1 s [t]
       = (s, invoked (pre ++ [m]) ++ [EvCallback [err]], []).
Proof.
  intros Hs Hchain Hadv Hveto.
  destruct (invoke_connected self op s Hs) as [k Hq].
  eexists. split; [exact Hq |]. apply run_ticks_one.
  eapply dispatch_vetoed; eauto using opRequest_action, opAction_own.
Qed.

(** A middleware step that never calls next stops the operation for
    good: the steps after it, the backend and the caller's callback are
    never reached. *)
Theorem silent_middleware_stalls_operation
  (self : Middleware) (op : Operation) (s : State)
  (pre : list MwFn) (m : MwFn) (post : list MwFn) :
  connectCalled s = true ->
  chainOf self (opAction op) = pre ++ m :: post ->
  advances pre (opRequest op) = true ->
  snd (mwStep m (rewritten pre (opRequest op))) = Silent ->
  exists t,
    invoke self op deliver s = (Ok tt, s, [], [t])
    /\ run_ticks 1 s [t] = (s, invoked (pre ++ [m]), []).
Proof.
  intros Hs Hchain Hadv Hsilent.
  destruct (invoke_connected self op s Hs) as [k Hq].
  eexists. split; [exact Hq |]. apply run_ticks_one.
  eapply dispatch_stalled; eauto using opRequest_action, opAction_own.
Qed.

(** The backend is called with the arguments [backendCall] lists:
    collection, docName, version, opData, requests and query as the
    chain left them in the request, and the start and end of getOps and
    the options of queryFetch and query as the caller passed them.  A
    backend error is handed to the caller as it is and no filter runs:
    fetch, getOps, submit, queryFetch and query call back with the
    error alone, subscribe and bulkSubscribe with the error and a null
    stream.  If the backend never answers, the caller's callback is
    never called. *)
Theorem backend_error_passes_through
  (self : Middleware) (op : Operation) (s : State)
  (name : string) (args : list jsval) :
  let chain := chainOf self (opAction op) in
  connectCalled s = true ->
  writableOptions op = true ->
  advances chain (opRequest op) = true ->
  backendCall op (rewritten chain (opRequest op)) = Some (name, args) ->
  exists t,
    invoke self op deliver s = (Ok tt, s, [], [t])
    /\ (forall answer,
          backend self name args = Some answer ->
          truthy (arg 0 answer) = true ->
          run_ticks 1 s [t]
          = (s, invoked chain
                ++ [EvBackend name args;
                    EvCallback (errorArgs op (arg 0 answer))], []))
    /\ (backend self name args = None ->
        run_ticks 1 s [t] = (s, invoked chain ++ [EvBackend name args], [])).
Proof.
  intros chain Hs _ Hadv Hcall.
  pose proof (opRequest_action op) as Haction. subst chain.
  destruct op; cbn [backendCall opRequest opAction] in *; try discriminate;
    injection Hcall as <- <-;
    (eexists; split; [apply trigger_connected, Hs |]; split;
     [ intros answer Hanswer Herr | intros Hanswer ];
     apply run_ticks_one;
     (rewrite (dispatch_advanced _ _ _ _ _ _ Haction eq_refl Hadv));
     cbv zeta;
     unfold callBackend, bind, tell, emit, deliver;
     rewrite Hanswer; rewrite ?Herr; reflexivity).
Qed.

(** connect sets the flag when its chain completes and touches nothing
    when the chain is ended by an error, so a connected agent stays
    connected whatever a later connect does; the operations of a
    connected agent are handed to the dispatcher instead of throwing. *)
Theorem connect_sets_flag_for_good
  (self : Middleware) (stream initialReq : jsval) (s : State) :
  let req := buildRequest thisAgent "connect" JNull JNull
               (Some (<["stream" := stream]> (<["initialReq" := initialReq]> ∅))) in
  exists t,
    connect self stream initialReq deliver s = (Ok tt, s, [], [t])
    /\ (advances (chainOf self "connect") req = true ->
        run_ticks 1 s [t]
        = (mkState true (heap s),
           invoked (chainOf self "connect") ++ [EvCallback [JNull]], [])
        /\ forall op, exists t',
             invoke self op deliver (mkState true (heap s))
             = (Ok tt, mkState true (heap s), [], [t']))
    /\ (forall pre m post err,
          chainOf self "connect" = pre ++ m :: post ->
          advances pre req = true ->
          vetoes m (rewritten pre req) err ->
          run_ticks 1 s [t]
          = (s, invoked (pre ++ [m]) ++ [EvCallback [err]], [])).
Proof.
  intros req. eexists. split; [apply connect_queues |]. split.
  - intros Hadv. split.
    + apply run_ticks_one.
      rewrite (runMethod_unfold _ "connect") by
      (first [apply buildRequest_action | reflexivity]).
      fold req. fold (chainOf self "connect").
      rewrite (next_advances _ _ _ _ _ Hadv). reflexivity.
    + intros op. destruct (invoke_connected self op (mkState true (heap s))
                             eq_refl) as [k Hq].
      eexists. exact Hq.
  - intros pre m post err Hchain Hadv Hveto. apply run_ticks_one.
    rewrite (runMethod_unfold _ "connect") by
      (first [apply buildRequest_action | reflexivity]).
    fold req. fold (chainOf self "connect"). rewrite Hchain.
    rewrite (next_vetoed _ _ _ _ _ _ _ _ Hadv Hveto).
    destruct Hveto as [_ Htruthy].
    unfold bind, tell, deliver, emit, ret. rewrite Htruthy. simpl.
    rewrite ?app_nil_r. reflexivity.
Qed.

(** ** Further properties: filters on the way back *)

Lemma runFilters_deliver fs collection docName data s :
  _runFilters fs collection docName data (fun e v => deliver [e; v]) s
  = (Ok tt, s,
     fst (chainRun fs collection docName data)
     ++ match snd (chainRun fs collection docName data) with
        | Some (e, v) => [EvCallback [e; v]]
        | None => []
        end, []).
Proof.
  rewrite runFilters_chainRun. unfold bind, tell.
  destruct (snd (chainRun fs collection docName data)) as [[e v] |];
    simpl; rewrite ?app_nil_r; reflexivity.
Qed.

Lemma chainRun_silent f post collection docName : forall pre data,
  accepts pre collection docName data = true ->
  snd (f_run f collection docName (filtered pre collection docName data))
  = Silent ->
  chainRun (pre ++ f :: post) collection docName data
  = (observed (pre ++ [f]) collection docName data, None).
Proof.
  induction pre as [| p pre IH]; intros data Hacc Hsig.
  - simpl in *. destruct (f_run f collection docName data) as [data' sig].
    simpl in Hsig. subst sig. reflexivity.
  - simpl in *. destruct (f_run p collection docName data) as [data' [e |]];
      [| discriminate].
    apply andb_true_iff in Hacc as [Hfalsy Hrest].
    apply negb_true_iff in Hfalsy. rewrite Hfalsy.
    rewrite (IH _ Hrest Hsig). reflexivity.
Qed.

(** A filter that never calls next stops its chain for good: the
    filters after it are not invoked and the callback of the chain is
    never called. *)
Theorem silent_filter_stalls_chain
  (pre : list Filter) (f : Filter) (post : list Filter)
  (collection docName data : jsval) (cb : jsval -> jsval -> M unit) (s : State) :
  accepts pre collection docName data = true ->
  snd (f_run f collection docName (filtered pre collection docName data))
  = Silent ->
  _runFilters (pre ++ f :: post) collection docName data cb s
  = (Ok tt, s, observed (pre ++ [f]) collection docName data, []).
Proof.
  intros Hacc Hsig. rewrite runFilters_chainRun.
  rewrite (chainRun_silent _ _ _ _ _ _ Hacc Hsig).
  unfold bind, tell, ret. simpl. rewrite app_nil_r. reflexivity.
Qed.

(** fetch hands the snapshot the backend returned to the doc filters,
    under the collection and document name of the request as the chain
    left it, and gives the caller what the filters answer: (undefined,
    filtered snapshot) or (error, null).  Nothing else is called. *)
Theorem fetch_delivers_filtered_snapshot
  (self : Middleware) (collection docName : jsval) (answer : list jsval)
  (s : State) :
  let op := OpFetch collection docName in
  let chain := chainOf self "fetch" in
  let req' := rewritten chain (opRequest op) in
  let args := [field req' "collection"; field req' "docName"] in
  let run := chainRun (docFilters self) (field req' "collection")
               (field req' "docName") (arg 1 answer) in
  connectCalled s = true ->
  advances chain (opRequest op) = true ->
  backend self "fetch" args = Some answer ->
  truthy (arg 0 answer) = false ->
  truthy (arg 1 answer) = true ->
  exists t,
    fetch self collection docName deliver s = (Ok tt, s, [], [t])
    /\ run_ticks 1 s [t]
       = (s, invoked chain ++ EvBackend "fetch" args :: fst run
             ++ match snd run with
                | Some (e, v) => [EvCallback [e; v]]
                | None => []
                end, []).
Proof.
  intros op chain req' args run Hs Hadv Hanswer Herr Hdata.
  subst op chain req' args run. cbn [opRequest] in *.
  eexists. split; [apply trigger_connected, Hs |]. apply run_ticks_one.
  rewrite (dispatch_advanced _ "fetch") by
    (first [apply buildRequest_action | exact Hadv | reflexivity]).
  cbv zeta. unfold callBackend, bind at 1 2, tell, emit.
  rewrite Hanswer, Herr, Hdata.
  unfold runDocFilters. rewrite runFilters_deliver. reflexivity.
Qed.

(** subscribe gives the caller a wrapper around the stream the backend
    returned, filtering under the collection and document name of the
    request as the chain left it; destroying the wrapper destroys that
    stream. *)
Theorem subscribe_delivers_wrapped_stream
  (self : Middleware) (collection docName version : jsval)
  (answer : list jsval) (s : State) :
  let op := OpSubscribe collection docName version in
  let chain := chainOf self "subscribe" in
  let req' := rewritten chain (opRequest op) in
  let args := [field req' "collection"; field req' "docName";
               field req' "version"] in
  let wrapper := JWrapped (field req' "collection") (field req' "docName")
                   (arg 1 answer) in
  connectCalled s = true ->
  advances chain (opRequest op) = true ->
  backend self "subscribe" args = Some answer ->
  truthy (arg 0 answer) = false ->
  isStream (arg 1 answer) = true ->
  exists t,
    subscribe self collection docName version deliver s = (Ok tt, s, [], [t])
    /\ run_ticks 1 s [t]
       = (s, invoked chain
             ++ [EvBackend "subscribe" args;
                 EvCallback [arg 0 answer; wrapper]], [])
    /\ destroyOf wrapper s = (Ok tt, s, [EvDestroy (arg 1 answer)], []).
Proof.
  intros op chain req' args wrapper Hs Hadv Hanswer Herr _.
  subst op chain req' args wrapper. cbn [opRequest] in *.
  eexists. split; [apply trigger_connected, Hs |]. split; [| reflexivity].
  apply run_ticks_one.
  rewrite (dispatch_advanced _ "subscribe") by
    (first [apply buildRequest_action | exact Hadv | reflexivity]).
  cbv zeta. unfold callBackend, bind, tell, emit, deliver.
  rewrite Hanswer, Herr. reflexivity.
Qed.

Lemma assoc_map_entries (f : string -> jsval -> jsval) k props :
  assoc k (map (fun '(k', v) => (k', f k' v)) props)
  = option_map (f k) (assoc k props).
Proof.
  induction props as [| [k' v] props IH]; [reflexivity |].
  simpl. destruct (String.eqb_spec k k') as [-> | Hne]; [reflexivity | exact IH].
Qed.

Lemma map_entries_keys (f : string -> jsval -> jsval) props :
  map fst (map (fun '(k', v) => (k', f k' v)) props) = map fst props.
Proof.
  induction props as [| [k' v] props IH]; [reflexivity |].
  simpl. rewrite IH. reflexivity.
Qed.

Lemma js_get_map_entries f props k :
  js_get (js_map_entries f (JObj props)) k
  = match assoc k props with
    | Some v => f k v
    | None => JUndef
    end.
Proof.
  simpl. rewrite assoc_map_entries. destruct (assoc k props); reflexivity.
Qed.

Lemma js_entries_map_entries_keys f props :
  map fst (js_entries (js_map_entries f (JObj props))) = map fst props.
Proof. simpl. apply map_entries_keys. Qed.

(** wrapOpStreams keeps the collections and the document names of the
    map it is given and replaces every stream by a wrapper made for the
    collection and the document name the stream is filed under. *)
Theorem wrapOpStreams_wraps_each_stream_in_place
  (self : Middleware) (streams : list (string * jsval)) :
  isBulkMap isStream (JObj streams) = true ->
  map fst (js_entries (wrapOpStreams self (JObj streams))) = map fst streams
  /\ (forall cName docs,
        assoc cName streams = Some (JObj docs) ->
        map fst (js_entries (js_get (wrapOpStreams self (JObj streams)) cName))
        = map fst docs
        /\ forall docName stream,
             assoc docName docs = Some stream ->
             js_get (js_get (wrapOpStreams self (JObj streams)) cName) docName
             = wrapOpStream self (JStr cName) (JStr docName) stream)
  /\ (forall cName,
        assoc cName streams = None ->
        js_get (wrapOpStreams self (JObj streams)) cName = JUndef).
Proof.
  intros _. unfold wrapOpStreams.
  split; [apply js_entries_map_entries_keys | split].
  - intros cName docs Hdocs. rewrite js_get_map_entries, Hdocs.
    split; [apply js_entries_map_entries_keys |].
    intros docName stream Hstream.
    rewrite js_get_map_entries, Hstream. reflexivity.
  - intros cName Hnone. rewrite js_get_map_entries, Hnone. reflexivity.
Qed.

(** The wrapper handles one event at a time: when the op filters
    answer and leave a chunk for the first events and never answer for
    the next one, the reader gets the chunks of those first events and
    nothing for the stalled event or any event after it. *)
Theorem wrapped_stream_stalls_with_its_filters
  (self : Middleware) (collection docName stream : jsval)
  (before : list jsval) (e : jsval) (after : list jsval) (s : State) :
  Forall (fun e' => forwardable self collection docName e' = true) before ->
  snd (chainRun (opFilters self) collection docName (JArr [e])) = None ->
  exists out,
    emits self (wrapOpStream self collection docName stream)
      (before ++ e :: after) s
    = (Ok tt, s, out, [])
    /\ Forall2 (forwards self collection docName) before
         (readable (pushed out))
    /\ length (readable (pushed out)) = length before.
Proof.
  intros Hbefore Hsilent.
  destruct (pipe_forwardable_prefix self collection docName stream before
              Hbefore) as (out1 & Hpipe & Hfw & Hclean).
  pose proof (chainRun_only_filters (opFilters self) collection docName
                (JArr [e])) as Honly.
  destruct (chainRun (opFilters self) collection docName (JArr [e]))
    as [tr ans] eqn:Hchain. simpl in Hsilent, Honly. subst ans.
  exists (out1 ++ tr). unfold wrapOpStream, emits.
  rewrite pushed_app, (pushed_filter_events _ Honly), app_nil_r.
  rewrite (readable_clean _ Hclean).
  split; [| split; [exact Hfw | symmetry; eapply Forall2_length, Hfw]].
  rewrite Hpipe. simpl pipe. unfold bind at 1, tell at 1.
  rewrite transform_unfold, Hchain. simpl fst. simpl snd.
  unfold bind, tell, ret. simpl. rewrite ?app_nil_r. reflexivity.
Qed.

(** ** Further properties: operations with two dispatches *)

Lemma run_ticks_two (f g : M unit) s s1 o1 s2 o2 q :
  f s = (Ok tt, s1, o1, [MkTask g]) ->
  g s1 = (Ok tt, s2, o2, q) ->
  run_ticks 2 s [MkTask f] = (s2, o1 ++ o2, q).
Proof.
  intros Hf Hg. simpl. rewrite Hf. simpl. rewrite Hg. simpl.
  rewrite app_nil_r. reflexivity.
Qed.

(** submit reads collection, docName, opData and channelPrefix back from
    the request, calls the backend, and on success dispatches the action
    after submit on a further turn, with the operation and the snapshot
    as payload.  The caller receives the version and the operations
    together with the outcome of that second dispatch: null, or the error
    of a step that vetoed it, although the backend has committed. *)
Theorem submit_reports_after_submit_outcome
  (self : Middleware) (collection docName opData : jsval)
  (options : option jsval) (answer : list jsval) (s : State) :
  let op := OpSubmit collection docName opData options in
  let chain := chainOf self "submit" in
  let req' := rewritten chain (opRequest op) in
  let args := [field req' "collection"; field req' "docName";
               field req' "opData";
               js_set (default (JObj []) options) "channelPrefix"
                 (field req' "channelPrefix")] in
  let after := buildRequest thisAgent "after submit"
                 (field req' "collection") (field req' "docName")
                 (Some (<["opData" := field req' "opData"]>
                          (<["snapshot" := arg 3 answer]> ∅))) in
  let chain2 := chainOf self "after submit" in
  connectCalled s = true ->
  writableOptions op = true ->
  advances chain (opRequest op) = true ->
  backend self "submit" args = Some answer ->
  truthy (arg 0 answer) = false ->
  exists t,
    submit self collection docName opData options deliver s
    = (Ok tt, s, [], [t])
    /\ (advances chain2 after = true ->
        run_ticks 2 s [t]
        = (s, (invoked chain ++ [EvBackend "submit" args])
              ++ invoked chain2
              ++ [EvCallback [JNull; arg 1 answer; arg 2 answer]], []))
    /\ (forall pre m post err,
          chain2 = pre ++ m :: post ->
          advances pre after = true ->
          vetoes m (rewritten pre after) err ->
          run_ticks 2 s [t]
          = (s, (invoked chain ++ [EvBackend "submit" args])
                ++ invoked (pre ++ [m])
                ++ [EvCallback [err; arg 1 answer; arg 2 answer]], [])).
Proof.
  intros op chain req' args after chain2 Hs _ Hadv Hanswer Herr.
  subst op chain req' args after chain2. cbn [opRequest] in *.
  eexists. split; [apply trigger_connected, Hs |].
  split.
  - intros Hadv2. eapply run_ticks_two.
    + rewrite (dispatch_advanced _ "submit") by
        (first [apply buildRequest_action | exact Hadv | reflexivity]).
      cbv zeta. unfold callBackend, bind at 1 2, tell, emit.
      rewrite Hanswer, Herr. rewrite trigger_connected by exact Hs.
      simpl. rewrite ?app_nil_r. reflexivity.
    + rewrite (runMethod_unfold _ "after submit") by
      (first [apply buildRequest_action | reflexivity]).
      fold (chainOf self "after submit").
      rewrite (next_advances _ _ _ _ _ Hadv2). reflexivity.
  - intros pre m post err Hchain Hadv2 Hveto. eapply run_ticks_two.
    + rewrite (dispatch_advanced _ "submit") by
        (first [apply buildRequest_action | exact Hadv | reflexivity]).
      cbv zeta. unfold callBackend, bind at 1 2, tell, emit.
      rewrite Hanswer, Herr. rewrite trigger_connected by exact Hs.
      simpl. rewrite ?app_nil_r. reflexivity.
    + rewrite (runMethod_unfold _ "after submit") by
      (first [apply buildRequest_action | reflexivity]).
      fold (chainOf self "after submit"). rewrite Hchain.
      rewrite (next_vetoed _ _ _ _ _ _ _ _ Hadv2 Hveto). reflexivity.
Qed.

(** fetchAndSubscribe dispatches fetch and then, on a further turn,
    subscribe under the collection and document name the first chain
    left; only then is the backend called, once.  The snapshot goes
    through the doc filters whether or not the backend returned one
    (there is no test for it, unlike in fetch), and the caller receives
    the filters' error alone or (null, snapshot, wrapped stream).  A veto
    of the second dispatch reaches the caller before any backend call. *)
Theorem fetchAndSubscribe_dispatches_twice
  (self : Middleware) (collection docName : jsval) (answer : list jsval)
  (s : State) :
  let op := OpFetchAndSubscribe collection docName in
  let chain := chainOf self "fetch" in
  let req1 := rewritten chain (opRequest op) in
  let sub := buildRequest thisAgent "subscribe" (field req1 "collection")
               (field req1 "docName") None in
  let chain2 := chainOf self "subscribe" in
  let req2 := rewritten chain2 sub in
  let args := [field req2 "collection"; field req2 "docName"] in
  let run := chainRun (docFilters self) (field req2 "collection")
               (field req2 "docName") (arg 1 answer) in
  connectCalled s = true ->
  advances chain (opRequest op) = true ->
  exists t,
    fetchAndSubscribe self collection docName deliver s = (Ok tt, s, [], [t])
    /\ (advances chain2 sub = true ->
        backend self "fetchAndSubscribe" args = Some answer ->
        truthy (arg 0 answer) = false ->
        isStream (arg 2 answer) = true ->
        run_ticks 2 s [t]
        = (s, invoked chain
              ++ invoked chain2
              ++ EvBackend "fetchAndSubscribe" args :: fst run
              ++ match snd run with
                 | Some (e, v) =>
                     if truthy e then [EvCallback [e]]
                     else [EvCallback
                             [JNull; v;
                              JWrapped (field req2 "collection")
                                (field req2 "docName") (arg 2 answer)]]
                 | None => []
                 end, []))
    /\ (forall pre m post err,
          chain2 = pre ++ m :: post ->
          advances pre sub = true ->
          vetoes m (rewritten pre sub) err ->
          run_ticks 2 s [t]
          = (s, invoked chain ++ invoked (pre ++ [m]) ++ [EvCallback [err]],
             [])).
Proof.
  intros op chain req1 sub chain2 req2 args run Hs Hadv.
  subst op chain req1 sub chain2 req2 args run. cbn [opRequest] in *.
  eexists. split; [apply trigger_connected, Hs |].
  split.
  - intros Hadv2 Hanswer Herr _. eapply run_ticks_two.
    + rewrite (dispatch_advanced _ "fetch") by
        (first [apply buildRequest_action | exact Hadv | reflexivity]).
      unfold bind, tell. rewrite trigger_connected by exact Hs.
      simpl. rewrite ?app_nil_r. reflexivity.
    + rewrite (dispatch_advanced _ "subscribe") by
        (first [apply buildRequest_action | exact Hadv2 | reflexivity]).
      cbv zeta. unfold callBackend, bind at 1 2, tell, emit.
      rewrite Hanswer, Herr. unfold runDocFilters.
      rewrite runFilters_chainRun. unfold bind, tell.
      destruct (snd (chainRun _ _ _ _)) as [[e v] |].
      * destruct (truthy e); reflexivity.
      * simpl. rewrite ?app_nil_r. reflexivity.
  - intros pre m post err Hchain Hadv2 Hveto. eapply run_ticks_two.
    + rewrite (dispatch_advanced _ "fetch") by
        (first [apply buildRequest_action | exact Hadv | reflexivity]).
      unfold bind, tell. rewrite trigger_connected by exact Hs.
      simpl. rewrite ?app_nil_r. reflexivity.
    + eapply dispatch_vetoed; eauto using buildRequest_action; reflexivity.
Qed.

(** ** Further properties: bulk fetch *)

Lemma callbacks_invoked ms : callbacks (invoked ms) = [].
Proof. induction ms as [| m ms IH]; [reflexivity | exact IH]. Qed.

(** A bulk fetch that reaches the backend hands the map the backend
    returned and the caller's callback to runBulkDocFilters.  With doc
    filters that answer before they return or never, the documents are
    filtered one after the other in for-in order and the caller is
    called back once with the error of the first rejected document
    alone if a document is rejected; else once with (null, map) if every
    filter chain answered; else not at all. *)
Theorem bulkFetch_calls_back_as_bulk_filters_decide
  (self : Middleware) (requests : jsval) (answer : list jsval) (s : State) :
  let op := OpBulkFetch requests in
  let chain := chainOf self "bulk fetch" in
  let requests' := field (rewritten chain (opRequest op)) "requests" in
  let sch := syncSchedule self (arg 1 answer) in
  connectCalled s = true ->
  advances chain (opRequest op) = true ->
  bulkFetchRequestsEmpty requests' = Ok false ->
  backend self "bulkFetch" [requests'] = Some answer ->
  truthy (arg 0 answer) = false ->
  isBulkMap (fun _ => true) (arg 1 answer) = true ->
  exists t s' out,
    bulkFetch self requests deliver s = (Ok tt, s, [], [t])
    /\ run_ticks 1 s [t] = (s', out, [])
    /\ callbacks out
       = match firstError sch with
         | Some e => [[e]]
         | None =>
             if settled sch then [[JNull; written sch (arg 1 answer)]]
             else []
         end.
Proof.
  intros op chain requests' sch Hs Hadv Hnonempty Hanswer Herr _.
  subst op chain requests' sch. cbn [opRequest] in *.
  pose proof (runBulkDocFilters_callbacks self (arg 1 answer)
                (connectCalled s) (heap s)) as Hcb.
  pose proof (runBulkDocFilters_sync self (arg 1 answer)
                (connectCalled s) (heap s)) as Hsync.
  destruct (bulk_run_live (connectCalled s) (heap s)
              (syncSchedule self (arg 1 answer)) 0 0 false (JBool true)
              (arg 1 answer) (syncSchedule_wellFormed self (arg 1 answer))
              (le_n 0) eq_refl ltac:(discriminate))
    as (w' & l' & d' & out & Hrun & _).
  change (forEach (syncSchedule self (arg 1 answer))
            (bulkStep (length (heap s)) (S (length (heap s)))
               (S (S (length (heap s)))) (Some deliver))
            (frame (connectCalled s) (heap s) (JNum 1) (JBool true)
               (arg 1 answer))
          = (Ok tt, frame (connectCalled s) (heap s) (JNum w') l' d', out, []))
    in Hrun.
  rewrite Hrun in Hsync. unfold traceOf in Hcb. rewrite Hsync in Hcb.
  simpl in Hcb.
  replace (mkState (connectCalled s) (heap s)) with s in Hsync
    by (destruct s; reflexivity).
  eexists. exists (frame (connectCalled s) (heap s) (JNum w') l' d').
  exists (invoked (chainOf self "bulk fetch")
          ++ EvBackend "bulkFetch"
               [field (rewritten (chainOf self "bulk fetch")
                         (buildRequest thisAgent "bulk fetch" JNull JNull
                            (Some (<["requests" := requests]> ∅))))
                  "requests"] :: out).
  split; [apply trigger_connected, Hs |]. split.
  - apply run_ticks_one.
    rewrite (dispatch_advanced _ "bulk fetch") by
      (first [apply buildRequest_action | exact Hadv | reflexivity]).
    cbv zeta. rewrite Hnonempty.
    unfold callBackend, bind at 1 2 3, tell, liftR, emit.
    rewrite Hanswer, Herr, Hsync. reflexivity.
  - rewrite callbacks_app, callbacks_invoked. simpl. exact Hcb.
Qed.

(** A bulk result without documents is handed back at once and as it
    is: runBulkDocFilters calls back once with (null, map) and invokes no
    filter. *)
Theorem runBulkDocFilters_without_documents
  (self : Middleware) (data : jsval) (s : State) :
  isBulkMap (fun _ => true) data = true ->
  Forall (fun entry => js_entries (snd entry) = []) (js_entries data) ->
  exists s',
    runBulkDocFilters self data (Some deliver) s
    = (Ok tt, s', [EvCallback [JNull; data]], []).
Proof.
  intros _ Hnone.
  assert (syncSchedule self data = [LoopEnded]) as Hsch.
  { unfold syncSchedule. generalize dependent (js_entries data).
    induction 1 as [| [cName docs] rest Hdocs _ IH]; [reflexivity |].
    simpl in Hdocs. cbn [flat_map]. rewrite Hdocs. exact IH. }
  replace s with (mkState (connectCalled s) (heap s)) by (destruct s; reflexivity).
  rewrite runBulkDocFilters_sync, Hsch. simpl forEach.
  unfold bulkStep, bind. rewrite bulkDone_frame. simpl.
  eexists. reflexivity.
Qed.

(** ** Further properties: query results *)

Lemma imap_indexed items : forall i0,
  imap (fun i d => (i0 + i, d)) items = indexed i0 items.
Proof.
  induction items as [| d rest IH]; intros i0; [reflexivity |].
  simpl. rewrite Nat.add_0_r. f_equal.
  rewrite <- (IH (S i0)). apply imap_ext. intros i x _. simpl.
  rewrite Nat.add_succ_r. reflexivity.
Qed.

Lemma insert_at_length (done' : list jsval) d v rest :
  <[length done' := v]> (done' ++ d :: rest) = done' ++ v :: rest.
Proof.
  rewrite insert_app_r_alt by lia.
  replace (length done' - length done') with 0 by lia. reflexivity.
Qed.

Lemma filterings_app tr1 tr2 :
  filterings (tr1 ++ tr2) = filterings tr1 ++ filterings tr2.
Proof.
  induction tr1 as [| e tr1 IH]; [reflexivity |].
  destruct e; simpl; rewrite IH; reflexivity.
Qed.

Lemma filterings_only tr :
  forallb isFilterEvent tr = true -> filterings tr = tr.
Proof.
  induction tr as [| e tr IH]; [reflexivity |].
  destruct e; simpl; try discriminate. intros H. rewrite (IH H). reflexivity.
Qed.

Lemma callbacks_only_filters tr :
  forallb isFilterEvent tr = true -> callbacks tr = [].
Proof.
  induction tr as [| e tr IH]; [reflexivity |].
  destruct e; simpl; try discriminate. exact IH.
Qed.

Lemma others_app tr1 tr2 : others (tr1 ++ tr2) = others tr1 ++ others tr2.
Proof.
  induction tr1 as [| e tr1 IH]; [reflexivity |].
  destruct e; simpl; rewrite IH; reflexivity.
Qed.

Lemma others_only_filters tr :
  forallb isFilterEvent tr = true -> others tr = [].
Proof.
  induction tr as [| e tr IH]; [reflexivity |].
  destruct e; simpl; try discriminate. exact IH.
Qed.

Lemma others_no_filters tr :
  existsb isFilterEvent tr = false -> others tr = tr /\ filterings tr = [].
Proof.
  induction tr as [| e tr IH]; [split; reflexivity |].
  destruct e; simpl; try discriminate; intros H; destruct (IH H) as [-> ->];
    split; reflexivity.
Qed.

Lemma callbacks_others tr : callbacks (others tr) = callbacks tr.
Proof.
  induction tr as [| e tr IH]; [reflexivity |].
  destruct e; simpl; rewrite ?IH; reflexivity.
Qed.

Lemma length_indexed items : forall i, length (indexed i items) = length items.
Proof.
  induction items as [| d rest IH]; intros i; simpl; [| rewrite IH];
    reflexivity.
Qed.

Lemma asyncEach_nonempty {A} (x : A) arr iterator callback c h :
  asyncEach (x :: arr) iterator callback (mkState c h)
  = forEach (x :: arr)
      (fun y => iterator y
                  (eachDone (length h) (length (h ++ [JNum 0]))
                     (length (x :: arr)) callback))
      (mkState c ((h ++ [JNum 0]) ++ [JBool true])).
Proof.
  unfold asyncEach. rewrite !alloc_bind. reflexivity.
Qed.

Section QueryRun.

Variables (self : Middleware) (collection : jsval) (c : bool)
  (h0 : list jsval) (n : nat).

(** The callback given to filterQueryResults reports to the trace and
    does nothing else. *)
Variables (callback : jsval -> jsval -> M unit)
  (report : jsval -> jsval -> list Event).
Hypothesis callback_reports :
  forall e r s, callback e r s = (Ok tt, s, report e r, []).
Hypothesis report_clean :
  forall e r, existsb isFilterEvent (report e r) = false.

Lemma queryItem_frame i d cur k l :
  queryItem self collection (length h0) (S (length h0)) (S (S (length h0))) n
    callback (i, d) (frame c h0 (JArr cur) (JNum k) l)
  = match snd (itemRun self collection d) with
    | Some (e, v) =>
        if truthy e then
          (Ok tt, frame c h0 (JArr cur) (JNum k) (if truthy l then JNull else l),
           fst (itemRun self collection d)
           ++ (if truthy l then report e (JArr cur) else []), [])
        else
          (Ok tt, frame c h0 (JArr (<[i := v]> cur)) (JNum (k + 1)) l,
           fst (itemRun self collection d)
           ++ (if (k + 1 =? Z.of_nat n)%Z && truthy l
               then report JUndef (JArr (<[i := v]> cur)) else []), [])
    | None =>
        (Ok tt, frame c h0 (JArr cur) (JNum k) l,
         fst (itemRun self collection d), [])
    end.
Proof.
  unfold queryItem, runDocFilters, itemRun. rewrite runFilters_chainRun.
  destruct (chainRun (docFilters self) collection (js_get d "docName") d)
    as [tr [[e v] |]]; simpl fst; simpl snd.
  - unfold bind at 1, tell. cbv beta iota.
    unfold eachDone, bind, ret.
    destruct (truthy e) eqn:He; cbv beta iota.
    + frame_step. destruct (truthy l) eqn:Hl; cbv beta iota.
      * frame_step. rewrite callback_reports. repeat frame_step.
        simpl. rewrite ?app_nil_r. reflexivity.
      * simpl. reflexivity.
    + repeat frame_step.
      change (js_add (JNum k) 1) with (JNum (k + 1)).
      change (js_is (JNum (k + 1)) (Z.of_nat n)) with (k + 1 =? Z.of_nat n)%Z.
      simpl js_items.
      destruct ((k + 1 =? Z.of_nat n)%Z && truthy l); cbv beta iota.
      * frame_step. rewrite callback_reports.
        simpl. rewrite ?app_nil_r. reflexivity.
      * simpl. reflexivity.
  - unfold bind, tell, ret. simpl. rewrite app_nil_r. reflexivity.
Qed.

(** After the first rejection nothing is reported, and the filters of
    the remaining results are invoked all the same. *)
Lemma query_run_consumed : forall rest i0 cur k l,
  truthy l = false ->
  exists cur' k' l' out,
    forEach (indexed i0 rest)
      (queryItem self collection (length h0) (S (length h0))
         (S (S (length h0))) n callback)
      (frame c h0 (JArr cur) (JNum k) l)
    = (Ok tt, frame c h0 (JArr cur') (JNum k') l', out, [])
    /\ others out = []
    /\ filterings out = flat_map (fun d => fst (itemRun self collection d)) rest.
Proof.
  induction rest as [| d rest IH]; intros i0 cur k l Hl.
  - exists cur, k, l, []. repeat split; reflexivity.
  - pose proof (queryItem_frame i0 d cur k l) as Hstep.
    pose proof (chainRun_only_filters (docFilters self) collection
                  (js_get d "docName") d) as Honly.
    fold (itemRun self collection d) in Honly.
    rewrite Hl, andb_false_r in Hstep.
    destruct (snd (itemRun self collection d)) as [[e v] |];
      [destruct (truthy e) |].
    + destruct (IH (S i0) cur k l Hl)
        as (cur' & k' & l' & out & Hrun & Hcb & Hfl).
      eexists _, _, _, (_ ++ out). split; [| split].
      * simpl indexed. eapply forEach_cons_run; [exact Hstep | exact Hrun].
      * rewrite !others_app, Hcb, (others_only_filters _ Honly).
        reflexivity.
      * rewrite !filterings_app, Hfl, (filterings_only _ Honly), app_nil_r.
        reflexivity.
    + destruct (IH (S i0) (<[i0 := v]> cur) (k + 1)%Z l Hl)
        as (cur' & k' & l' & out & Hrun & Hcb & Hfl).
      eexists _, _, _, (_ ++ out). split; [| split].
      * simpl indexed. eapply forEach_cons_run; [exact Hstep | exact Hrun].
      * rewrite !others_app, Hcb, (others_only_filters _ Honly).
        reflexivity.
      * rewrite !filterings_app, Hfl, (filterings_only _ Honly), app_nil_r.
        reflexivity.
    + destruct (IH (S i0) cur k l Hl)
        as (cur' & k' & l' & out & Hrun & Hcb & Hfl).
      eexists _, _, _, (_ ++ out). split; [| split].
      * simpl indexed. eapply forEach_cons_run; [exact Hstep | exact Hrun].
      * rewrite !others_app, Hcb, (others_only_filters _ Honly).
        reflexivity.
      * rewrite !filterings_app, Hfl, (filterings_only _ Honly).
        reflexivity.
Qed.

Lemma query_run_live : forall rest done' k l,
  truthy l = true ->
  (k + Z.of_nat (length rest) = Z.of_nat n)%Z ->
  Forall (fun d => snd (itemRun self collection d) <> None) rest ->
  exists cur' k' l' out,
    forEach (indexed (length done') rest)
      (queryItem self collection (length h0) (S (length h0))
         (S (S (length h0))) n callback)
      (frame c h0 (JArr (done' ++ rest)) (JNum k) l)
    = (Ok tt, frame c h0 (JArr cur') (JNum k') l', out, [])
    /\ filterings out = flat_map (fun d => fst (itemRun self collection d)) rest
    /\ (forall e, firstRejection self collection rest = Some e ->
                  exists r, others out = report e r)
    /\ (firstRejection self collection rest = None ->
        others out
        = match rest with
          | [] => []
          | _ => report JUndef
                   (JArr (done' ++ map (filteredItem self collection) rest))
          end).
Proof.
  induction rest as [| d rest IH]; intros done' k l Hl Hk Hans.
  - exists (done' ++ []), k, l, [].
    split; [reflexivity | split; [reflexivity | split]];
      [discriminate | reflexivity].
  - inversion Hans as [| ? ? Hd Hrest]; subst.
    pose proof (queryItem_frame (length done') d (done' ++ d :: rest) k l)
      as Hstep.
    pose proof (chainRun_only_filters (docFilters self) collection
                  (js_get d "docName") d) as Honly.
    fold (itemRun self collection d) in Honly.
    rewrite Hl in Hstep.
    simpl firstRejection. unfold filteredItem at 1. simpl map.
    destruct (snd (itemRun self collection d)) as [[e v] |]; [| congruence].
    destruct (truthy e) eqn:He.
    + destruct (query_run_consumed rest (S (length done')) (done' ++ d :: rest)
                  k JNull eq_refl)
        as (cur' & k' & l' & out & Hrun & Hcb & Hfl).
      destruct (others_no_filters _ (report_clean e (JArr (done' ++ d :: rest))))
        as [Hoth Hnof].
      eexists _, _, _, (_ ++ out). split; [| split; [| split]].
      * simpl indexed. eapply forEach_cons_run; [exact Hstep | exact Hrun].
      * simpl flat_map.
        rewrite !filterings_app, Hfl, (filterings_only _ Honly), Hnof, app_nil_r.
        reflexivity.
      * intros e0 [= <-]. eexists.
        rewrite !others_app, Hcb, (others_only_filters _ Honly), Hoth.
        simpl. rewrite app_nil_r. reflexivity.
      * discriminate.
    + rewrite andb_true_r, insert_at_length in Hstep.
      destruct rest as [| d2 rest].
      * replace (k + 1 =? Z.of_nat n)%Z with true in Hstep
          by (symmetry; apply Z.eqb_eq; simpl in Hk; lia).
        destruct (others_no_filters _ (report_clean JUndef (JArr (done' ++ [v]))))
          as [Hoth Hnof].
        eexists _, _, _, (_ ++ []). split; [| split; [| split]].
        -- simpl indexed. eapply forEach_cons_run; [exact Hstep | reflexivity].
        -- simpl flat_map.
           rewrite !filterings_app, (filterings_only _ Honly), Hnof.
           simpl. rewrite ?app_nil_r. reflexivity.
        -- discriminate.
        -- intros _.
           rewrite !others_app, (others_only_filters _ Honly), Hoth.
           simpl. rewrite ?app_nil_r. reflexivity.
      * replace (k + 1 =? Z.of_nat n)%Z with false in Hstep
          by (symmetry; apply Z.eqb_neq; simpl length in Hk; lia).
        destruct (IH (done' ++ [v]) (k + 1)%Z l Hl
                    ltac:(simpl length in *; lia) Hrest)
          as (cur' & k' & l' & out & Hrun & Hfl & Hrej & Hnone).
        rewrite length_app in Hrun. simpl length in Hrun.
        replace (length done' + 1) with (S (length done')) in Hrun by lia.
        rewrite <- app_assoc in Hrun. simpl app in Hrun.
        eexists _, _, _, (_ ++ out). split; [| split; [| split]].
        -- simpl indexed. eapply forEach_cons_run; [exact Hstep |].
           exact Hrun.
        -- rewrite !filterings_app, Hfl, (filterings_only _ Honly).
           simpl. rewrite ?app_nil_r. reflexivity.
        -- intros e0 He0. destruct (Hrej e0 He0) as [r Hr]. exists r.
           rewrite !others_app, Hr, (others_only_filters _ Honly).
           reflexivity.
        -- intros Hnone'.
           rewrite !others_app, (Hnone Hnone'),
             (others_only_filters _ Honly).
           simpl. rewrite <- app_assoc. reflexivity.
Qed.

Lemma filterQueryResults_run d rest :
  filterQueryResults self collection (JArr (d :: rest)) callback (mkState c h0)
  = forEach (indexed 0 (d :: rest))
      (queryItem self collection (length h0) (S (length h0))
         (S (S (length h0))) (length (d :: rest)) callback)
      (frame c h0 (JArr (d :: rest)) (JNum 0) (JBool true)).
Proof.
  unfold filterQueryResults. rewrite alloc_bind.
  cbn [js_items]. rewrite imap_cons, asyncEach_nonempty.
  rewrite <- (imap_cons (fun i data => (i, data)) d rest).
  change (imap (fun i data => (i, data)) (d :: rest))
    with (imap (fun i data => (0 + i, data)) (d :: rest)).
  rewrite imap_indexed, length_indexed.
  rewrite !length_app. simpl length.
  replace (length h0 + 1) with (S (length h0)) by lia.
  replace (S (length h0) + 1) with (S (S (length h0))) by lia.
  replace (((h0 ++ [JArr (d :: rest)]) ++ [JNum 0]) ++ [JBool true])
    with (h0 ++ [JArr (d :: rest); JNum 0; JBool true])
    by (rewrite <- !app_assoc; reflexivity).
  fold (frame c h0 (JArr (d :: rest)) (JNum 0) (JBool true)).
  apply forEach_ext. intros [i x] s. reflexivity.
Qed.

Lemma filterQueryResults_empty :
  filterQueryResults self collection (JArr []) callback (mkState c h0)
  = (Ok tt, mkState c (h0 ++ [JArr []]), report JUndef (JArr []), []).
Proof.
  unfold filterQueryResults. rewrite alloc_bind.
  cbn [js_items imap asyncEach]. unfold bind, load. simpl.
  rewrite list_lookup_middle by reflexivity. simpl.
  rewrite callback_reports. simpl. reflexivity.
Qed.

End QueryRun.

(** What filterQueryResults reports through a callback that only
    reports. *)
Lemma filterQueryResults_reports self collection items callback report s :
  (forall e r s', callback e r s' = (Ok tt, s', report e r, [])) ->
  (forall e r, existsb isFilterEvent (report e r) = false) ->
  Forall (fun d => snd (itemRun self collection d) <> None) items ->
  exists s' out,
    filterQueryResults self collection (JArr items) callback s
    = (Ok tt, s', out, [])
    /\ filterings out = flat_map (fun d => fst (itemRun self collection d)) items
    /\ (forall e, firstRejection self collection items = Some e ->
                  exists r, others out = report e r)
    /\ (firstRejection self collection items = None ->
        others out
        = report JUndef (JArr (map (filteredItem self collection) items))).
Proof.
  intros Hcb Hclean Hans.
  replace s with (mkState (connectCalled s) (heap s)) by (destruct s; reflexivity).
  destruct items as [| d rest].
  - rewrite (filterQueryResults_empty _ _ _ _ _ report Hcb).
    destruct (others_no_filters _ (Hclean JUndef (JArr []))) as [Hoth Hnof].
    eexists _, _. split; [reflexivity |].
    split; [exact Hnof | split; [discriminate | intros _; exact Hoth]].
  - rewrite (filterQueryResults_run _ _ _ _ _).
    destruct (query_run_live self collection (connectCalled s) (heap s)
                (length (d :: rest)) callback report Hcb Hclean
                (d :: rest) [] 0%Z (JBool true) eq_refl ltac:(lia) Hans)
      as (cur' & k' & l' & out & Hrun & Hfl & Hrej & Hnone).
    simpl length in Hrun. simpl app in Hrun.
    eexists _, out. split; [exact Hrun |].
    split; [exact Hfl | split; [exact Hrej | exact Hnone]].
Qed.

(** With doc filters that answer before they return, filterQueryResults
    runs the filters over every result in list order, each under its own
    docName, whether or not an earlier result was rejected, and calls
    back exactly once: with the error of the first rejected result when
    there is one, and otherwise with a falsy error and the results,
    every result as its filters left it. *)
Theorem filterQueryResults_filters_every_result
  (self : Middleware) (collection : jsval) (items : list jsval) (s : State) :
  forallb isObject items = true ->
  Forall (answersAtOnce self collection) items ->
  exists s' out,
    filterQueryResults self collection (JArr items)
      (fun e r => deliver [e; r]) s
    = (Ok tt, s', out, [])
    /\ filterings out = flat_map (fun d => fst (itemRun self collection d)) items
    /\ (forall e, firstRejection self collection items = Some e ->
                  exists r, callbacks out = [[e; r]])
    /\ (firstRejection self collection items = None ->
        exists e,
          truthy e = false
          /\ callbacks out
             = [[e; JArr (map (filteredItem self collection) items)]]).
Proof.
  intros _ Hans.
  destruct (filterQueryResults_reports self collection items
              (fun e r => deliver [e; r]) (fun e r => [EvCallback [e; r]]) s
              ltac:(reflexivity) ltac:(reflexivity) Hans)
    as (s' & out & Hrun & Hfl & Hrej & Hnone).
  exists s', out. split; [exact Hrun | split; [exact Hfl | split]].
  - intros e He. destruct (Hrej e He) as [r Hr]. exists r.
    rewrite <- callbacks_others, Hr. reflexivity.
  - intros Hn. exists JUndef. split; [reflexivity |].
    rewrite <- callbacks_others, (Hnone Hn). reflexivity.
Qed.

Lemma firstRejection_truthy self collection items e :
  firstRejection self collection items = Some e -> truthy e = true.
Proof.
  induction items as [| d rest IH]; [discriminate |].
  simpl. destruct (snd (itemRun self collection d)) as [[e' v] |]; [| exact IH].
  destruct (truthy e') eqn:He'; [| exact IH].
  intros [= <-]. exact He'.
Qed.

Lemma filterings_invoked ms : filterings (invoked ms) = [].
Proof. induction ms as [| m ms IH]; [reflexivity | exact IH]. Qed.

(** queryFetch hands a missing result list (null) straight to the
    caller with the extra data.  A list of results goes through
    filterQueryResults under the collection of the request as the chain
    left it: with doc filters that answer before they return, every
    result is filtered in list order, and the caller receives the error
    of the first rejected result alone or (null, filtered results,
    extra), the extra data untouched. *)
Theorem queryFetch_filters_results_and_keeps_extra
  (self : Middleware) (collection query options : jsval)
  (answer : list jsval) (s : State) :
  let op := OpQueryFetch collection query options in
  let chain := chainOf self "query" in
  let req' := rewritten chain (opRequest op) in
  let args := [field req' "collection"; field req' "query"; options] in
  connectCalled s = true ->
  advances chain (opRequest op) = true ->
  backend self "queryFetch" args = Some answer ->
  truthy (arg 0 answer) = false ->
  exists t,
    queryFetch self collection query options deliver s = (Ok tt, s, [], [t])
    /\ (truthy (arg 1 answer) = false ->
        run_ticks 1 s [t]
        = (s, invoked chain
              ++ [EvBackend "queryFetch" args;
                  EvCallback [JNull; arg 1 answer; arg 2 answer]], []))
    /\ (forall items,
          arg 1 answer = JArr items ->
          forallb isObject items = true ->
          Forall (answersAtOnce self (field req' "collection")) items ->
          exists s' out,
            run_ticks 1 s [t] = (s', out, [])
            /\ filterings out
               = flat_map (fun d => fst (itemRun self (field req' "collection") d))
                   items
            /\ (forall e,
                  firstRejection self (field req' "collection") items = Some e ->
                  callbacks out = [[e]])
            /\ (firstRejection self (field req' "collection") items = None ->
                callbacks out
                = [[JNull;
                    JArr (map (filteredItem self (field req' "collection"))
                            items);
                    arg 2 answer]])).
Proof.
  intros op chain req' args Hs Hadv Hanswer Herr.
  subst op chain req' args. cbn [opRequest] in *.
  eexists. split; [apply trigger_connected, Hs |]. split.
  - intros Hres. apply run_ticks_one.
    rewrite (dispatch_advanced _ "query") by
      (first [apply buildRequest_action | exact Hadv | reflexivity]).
    cbv zeta. unfold callBackend, bind, tell, emit, deliver.
    rewrite Hanswer, Herr, Hres. reflexivity.
  - intros items Hitems _ Hans.
    assert (forall e r s0,
              (fun err results =>
                 if truthy err then deliver [err]
                 else deliver [JNull; results; arg 2 answer]) e r s0
              = (Ok tt, s0,
                 (fun e r => if truthy e then [EvCallback [e]]
                             else [EvCallback [JNull; r; arg 2 answer]]) e r,
                 [])) as Hcb
      by (intros e r s0; simpl; destruct (truthy e); reflexivity).
    destruct (filterQueryResults_reports self _ items _ _ s Hcb
                ltac:(intros e r; simpl; destruct (truthy e); reflexivity) Hans)
      as (s' & out & Hrun & Hfl & Hrej & Hnone).
    exists s'. eexists. split; [| split; [| split]].
    + apply run_ticks_one.
      rewrite (dispatch_advanced _ "query") by
        (first [apply buildRequest_action | exact Hadv | reflexivity]).
      cbv zeta. unfold callBackend, bind at 1 2, tell, emit.
      rewrite Hanswer. cbv beta iota zeta. rewrite Herr, Hitems.
      cbn [truthy]. rewrite Hrun. reflexivity.
    + rewrite filterings_app, filterings_invoked. simpl. exact Hfl.
    + intros e He. destruct (Hrej e He) as [r Hr].
      rewrite callbacks_app, callbacks_invoked. simpl.
      rewrite <- callbacks_others, Hr, (firstRejection_truthy _ _ _ _ He).
      reflexivity.
    + intros Hn. rewrite callbacks_app, callbacks_invoked. simpl.
      rewrite <- callbacks_others, (Hnone Hn). reflexivity.
Qed.

(** With doc filters that answer before they return, query filters the
    initial results of the emitter the backend returned, in list order,
    and gives the caller a wrapped emitter holding the filtered results
    and the emitter's extra data, which no filter sees; when a result is
    rejected the caller receives the error of the first rejected result
    alone. *)
Theorem query_delivers_filtered_initial_results
  (self : Middleware) (collection query_ options : jsval)
  (answer : list jsval) (items : list jsval) (s : State) :
  let op := OpQuery collection query_ options in
  let chain := chainOf self "query" in
  let req' := rewritten chain (opRequest op) in
  let args := [field req' "collection"; field req' "query"; options] in
  let emitter := arg 1 answer in
  connectCalled s = true ->
  advances chain (opRequest op) = true ->
  backend self "query" args = Some answer ->
  truthy (arg 0 answer) = false ->
  js_get emitter "data" = JArr items ->
  forallb isObject items = true ->
  Forall (answersAtOnce self (field req' "collection")) items ->
  exists t s' out,
    query self collection query_ options deliver s = (Ok tt, s, [], [t])
    /\ run_ticks 1 s [t] = (s', out, [])
    /\ filterings out
       = flat_map (fun d => fst (itemRun self (field req' "collection") d)) items
    /\ (forall e,
          firstRejection self (field req' "collection") items = Some e ->
          callbacks out = [[e]])
    /\ (firstRejection self (field req' "collection") items = None ->
        callbacks out
        = [[JNull;
            JObj [("data",
                   JArr (map (filteredItem self (field req' "collection"))
                           items));
                  ("extra", js_get emitter "extra")]]]).
Proof.
  intros op chain req' args emitter Hs Hadv Hanswer Herr Hdata _ Hans.
  subst op chain req' args emitter. cbn [opRequest] in *.
  assert (forall e r s0,
            (fun err data =>
               if truthy err then deliver [err]
               else deliver [JNull;
                             JObj [("data", data);
                                   ("extra", js_get (arg 1 answer) "extra")]])
              e r s0
            = (Ok tt, s0,
               (fun e r => if truthy e then [EvCallback [e]]
                           else [EvCallback
                                   [JNull;
                                    JObj [("data", r);
                                          ("extra",
                                           js_get (arg 1 answer) "extra")]]])
                 e r, [])) as Hcb
    by (intros e r s0; simpl; destruct (truthy e); reflexivity).
  destruct (filterQueryResults_reports self _ items _ _ s Hcb
              ltac:(intros e r; simpl; destruct (truthy e); reflexivity) Hans)
    as (s' & out & Hrun & Hfl & Hrej & Hnone).
  eexists. exists s'. eexists. split; [apply trigger_connected, Hs |].
  split; [| split; [| split]].
  - apply run_ticks_one.
    rewrite (dispatch_advanced _ "query") by
      (first [apply buildRequest_action | exact Hadv | reflexivity]).
    cbv zeta. unfold callBackend, bind at 1 2, tell, emit.
    rewrite Hanswer. cbv beta iota zeta. rewrite Herr, Hdata.
    rewrite Hrun. reflexivity.
  - rewrite filterings_app, filterings_invoked. simpl. exact Hfl.
  - intros e He. destruct (Hrej e He) as [r Hr].
    rewrite callbacks_app, callbacks_invoked. simpl.
    rewrite <- callbacks_others, Hr, (firstRejection_truthy _ _ _ _ He).
    reflexivity.
  - intros Hn. rewrite callbacks_app, callbacks_invoked. simpl.
    rewrite <- callbacks_others, (Hnone Hn). reflexivity.
Qed.

(** bulkSubscribe reads the request map back from the request, calls
    the backend once and gives the caller the backend's map with every
    stream wrapped. *)
Theorem bulkSubscribe_delivers_wrapped_streams
  (self : Middleware) (requests : jsval) (answer : list jsval) (s : State) :
  let op := OpBulkSubscribe requests in
  let chain := chainOf self "bulk subscribe" in
  let args := [field (rewritten chain (opRequest op)) "requests"] in
  connectCalled s = true ->
  advances chain (opRequest op) = true ->
  backend self "bulkSubscribe" args = Some answer ->
  truthy (arg 0 answer) = false ->
  isBulkMap isStream (arg 1 answer) = true ->
  exists t,
    bulkSubscribe self requests deliver s = (Ok tt, s, [], [t])
    /\ run_ticks 1 s [t]
       = (s, invoked chain
             ++ [EvBackend "bulkSubscribe" args;
                 EvCallback [arg 0 answer; wrapOpStreams self (arg 1 answer)]],
          []).
Proof.
  intros op chain args Hs Hadv Hanswer Herr _.
  subst op chain args. cbn [opRequest] in *.
  eexists. split; [apply trigger_connected, Hs |]. apply run_ticks_one.
  rewrite (dispatch_advanced _ "bulk subscribe") by
    (first [apply buildRequest_action | exact Hadv | reflexivity]).
  cbv zeta. unfold callBackend, bind, tell, emit, deliver.
  rewrite Hanswer, Herr. reflexivity.
Qed.

(** ** The further scenarios, run *)

(** A registry with a connect middleware: no fetch list, and use
    refuses subscribe. *)
Lemma configured_registry_has_no_fetch_or_subscribe_list_witness :
  Configured guarded
  /\ chainOf guarded "fetch" = []
  /\ exists msg, use (Some "subscribe") audit guarded = Throw msg.
Proof.
  assert (Configured guarded) as Hcfg.
  { apply (configured_use (Some "connect") forbid (newMiddleware storage));
      [constructor | reflexivity]. }
  destruct (configured_registry_has_no_fetch_or_subscribe_list guarded Hcfg)
    as (Huse & _ & _ & _ & Hfetch & _).
  split; [exact Hcfg | split].
  - rewrite Hfetch. reflexivity.
  - apply Huse. right. reflexivity.
Defined.

(** getOps on a server whose middleware for all actions refuses. *)
Lemma middleware_veto_reaches_caller_witness :
  let op := OpGetOps (JStr "people") (JStr "mario") (JNum 0) (JNum 10) in
  connectCalled connected = true
  /\ chainOf locked (opAction op) = [] ++ forbid :: []
  /\ vetoes forbid (rewritten [] (opRequest op)) (JStr "Forbidden")
  /\ exists t,
       invoke locked op deliver connected = (Ok tt, connected, [], [t])
       /\ run_ticks 1 connected [t]
          = (connected,
             [EvMiddleware "forbid"; EvCallback [JStr "Forbidden"]], []).
Proof.
  intros op.
  split; [reflexivity | split; [reflexivity | split; [split; reflexivity |]]].
  exact (middleware_veto_reaches_caller locked op connected [] forbid []
           (JStr "Forbidden") eq_refl eq_refl eq_refl (conj eq_refl eq_refl)).
Defined.

(** query on a server whose query middleware never calls next. *)
Lemma silent_middleware_stalls_operation_witness :
  let op := OpQuery (JStr "people") (JStr "q") JNull in
  connectCalled connected = true
  /\ chainOf hung (opAction op) = [] ++ mute :: []
  /\ exists t,
       invoke hung op deliver connected = (Ok tt, connected, [], [t])
       /\ run_ticks 1 connected [t] = (connected, [EvMiddleware "mute"], []).
Proof.
  intros op. split; [reflexivity | split; [reflexivity |]].
  exact (silent_middleware_stalls_operation hung op connected [] mute []
           eq_refl eq_refl eq_refl eq_refl).
Defined.

(** subscribe against a backend that fails. *)
Lemma backend_error_passes_through_witness :
  let op := OpSubscribe (JStr "people") (JStr "mario") (JNum 3) in
  connectCalled connected = true
  /\ failing "subscribe" [JStr "people"; JStr "mario"; JNum 3]
     = Some [JStr "backend down"]
  /\ exists t,
       invoke broken op deliver connected = (Ok tt, connected, [], [t])
       /\ run_ticks 1 connected [t]
          = (connected,
             [EvBackend "subscribe" [JStr "people"; JStr "mario"; JNum 3];
              EvCallback [JStr "backend down"; JNull]], []).
Proof.
  intros op. split; [reflexivity | split; [reflexivity |]].
  destruct (backend_error_passes_through broken op connected "subscribe"
              [JStr "people"; JStr "mario"; JNum 3]
              eq_refl eq_refl eq_refl eq_refl)
    as (t & Hq & Herr & _).
  exists t. split; [exact Hq |].
  exact (Herr [JStr "backend down"] eq_refl eq_refl).
Defined.

(** connect on the server: its chain completes. *)
Lemma connect_sets_flag_for_good_witness :
  advances (chainOf server "connect")
    (buildRequest thisAgent "connect" JNull JNull
       (Some (<["stream" := JRef "socket"]> (<["initialReq" := JNull]> ∅))))
  = true
  /\ exists t,
       connect server (JRef "socket") JNull deliver fresh
       = (Ok tt, fresh, [], [t])
       /\ run_ticks 1 fresh [t]
          = (connected, [EvMiddleware "audit"; EvCallback [JNull]], []).
Proof.
  split; [reflexivity |].
  destruct (connect_sets_flag_for_good server (JRef "socket") JNull fresh)
    as (t & Hq & Hok & _).
  exists t. split; [exact Hq |]. exact (proj1 (Hok eq_refl)).
Defined.

(** A chain whose second filter never answers. *)
Lemma silent_filter_stalls_chain_witness :
  accepts [marioFilter] (JStr "people") (JStr "mario") (JObj []) = true
  /\ _runFilters ([marioFilter] ++ muteFilter :: [marioFilter])
       (JStr "people") (JStr "mario") (JObj [])
       (fun e d => deliver [e; d]) connected
     = (Ok tt, connected,
        [EvFilter "mario" (JStr "people") (JStr "mario") (JObj []);
         EvFilter "mute" (JStr "people") (JStr "mario")
           (JObj [("greeting", JStr "It'se me: Mario")])], []).
Proof.
  split; [reflexivity |].
  exact (silent_filter_stalls_chain [marioFilter] muteFilter [marioFilter]
           (JStr "people") (JStr "mario") (JObj [])
           (fun e d => deliver [e; d]) connected eq_refl eq_refl).
Defined.

(** The header comment's fetch of mario. *)
Lemma fetch_delivers_filtered_snapshot_witness :
  connectCalled connected = true
  /\ storage "fetch" [JStr "people"; JStr "mario"]
     = Some [JNull; JObj [("name", JStr "Mario")]]
  /\ exists t,
       fetch server (JStr "people") (JStr "mario") deliver connected
       = (Ok tt, connected, [], [t])
       /\ run_ticks 1 connected [t]
          = (connected,
             [EvMiddleware "audit";
              EvBackend "fetch" [JStr "people"; JStr "mario"];
              EvFilter "mario" (JStr "people") (JStr "mario")
                (JObj [("name", JStr "Mario")]);
              EvCallback
                [JUndef;
                 JObj [("name", JStr "Mario");
                       ("greeting", JStr "It'se me: Mario")]]], []).
Proof.
  split; [reflexivity | split; [reflexivity |]].
  exact (fetch_delivers_filtered_snapshot server (JStr "people") (JStr "mario")
           [JNull; JObj [("name", JStr "Mario")]] connected
           eq_refl eq_refl eq_refl eq_refl eq_refl).
Defined.

(** subscribe on the hub. *)
Lemma subscribe_delivers_wrapped_stream_witness :
  connectCalled connected = true
  /\ stocked "subscribe" [JStr "people"; JStr "mario"; JNum 3]
     = Some [JNull; JRef "source"]
  /\ exists t,
       subscribe hub (JStr "people") (JStr "mario") (JNum 3) deliver connected
       = (Ok tt, connected, [], [t])
       /\ run_ticks 1 connected [t]
          = (connected,
             [EvMiddleware "audit";
              EvBackend "subscribe" [JStr "people"; JStr "mario"; JNum 3];
              EvCallback
                [JNull;
                 JWrapped (JStr "people") (JStr "mario") (JRef "source")]], []).
Proof.
  split; [reflexivity | split; [reflexivity |]].
  destruct (subscribe_delivers_wrapped_stream hub (JStr "people") (JStr "mario")
              (JNum 3) [JNull; JRef "source"] connected
              eq_refl eq_refl eq_refl eq_refl eq_refl) as (t & Hq & Hrun & _).
  exists t. split; [exact Hq | exact Hrun].
Defined.

(** A map with one stream. *)
Lemma wrapOpStreams_wraps_each_stream_in_place_witness :
  isBulkMap isStream (JObj [("people", JObj [("mario", JRef "source")])])
  = true
  /\ js_get (js_get (wrapOpStreams hub
                       (JObj [("people", JObj [("mario", JRef "source")])]))
               "people") "mario"
     = JWrapped (JStr "people") (JStr "mario") (JRef "source").
Proof.
  split; [reflexivity |].
  destruct (wrapOpStreams_wraps_each_stream_in_place hub
              [("people", JObj [("mario", JRef "source")])] eq_refl)
    as (_ & Hin & _).
  destruct (Hin "people" [("mario", JRef "source")] eq_refl) as [_ Hdoc].
  exact (Hdoc "mario" (JRef "source") eq_refl).
Defined.

(** A wrapper whose op filter never answers. *)
Lemma wrapped_stream_stalls_with_its_filters_witness :
  snd (chainRun (opFilters stalled) (JStr "people") (JStr "mario")
         (JArr [JNum 1])) = None
  /\ exists out,
       emits stalled
         (wrapOpStream stalled (JStr "people") (JStr "mario") (JRef "source"))
         ([] ++ JNum 1 :: [JNum 2]) connected
       = (Ok tt, connected, out, [])
       /\ length (readable (pushed out)) = 0.
Proof.
  split; [reflexivity |].
  destruct (wrapped_stream_stalls_with_its_filters stalled (JStr "people")
              (JStr "mario") (JRef "source") [] (JNum 1) [JNum 2] connected
              (List.Forall_nil _) eq_refl) as (out & Hrun & _ & Hlen).
  exists out. split; [exact Hrun | exact Hlen].
Defined.

(** submit on the hub. *)
Lemma submit_reports_after_submit_outcome_witness :
  connectCalled connected = true
  /\ exists t,
       submit hub (JStr "people") (JStr "mario") (JObj [("op", JStr "x")]) None
         deliver connected
       = (Ok tt, connected, [], [t])
       /\ run_ticks 2 connected [t]
          = (connected,
             [EvMiddleware "audit";
              EvBackend "submit"
                [JStr "people"; JStr "mario"; JObj [("op", JStr "x")];
                 JObj [("channelPrefix", JNull)]];
              EvMiddleware "audit"; EvCallback [JNull; JNum 7; JArr []]], []).
Proof.
  split; [reflexivity |].
  destruct (submit_reports_after_submit_outcome hub (JStr "people")
              (JStr "mario") (JObj [("op", JStr "x")]) None
              [JNull; JNum 7; JArr []; JObj [("name", JStr "Mario")]] connected
              eq_refl eq_refl eq_refl eq_refl eq_refl) as (t & Hq & Hok & _).
  exists t. split; [exact Hq | exact (Hok eq_refl)].
Defined.

(** fetchAndSubscribe of peaches on the hub: no snapshot, and the doc
    filter is asked all the same. *)
Lemma fetchAndSubscribe_dispatches_twice_witness :
  connectCalled connected = true
  /\ stocked "fetchAndSubscribe" [JStr "people"; JStr "peaches"]
     = Some [JNull; JNull; JRef "source"]
  /\ exists t,
       fetchAndSubscribe hub (JStr "people") (JStr "peaches") deliver connected
       = (Ok tt, connected, [], [t])
       /\ run_ticks 2 connected [t]
          = (connected,
             [EvMiddleware "audit"; EvMiddleware "audit";
              EvBackend "fetchAndSubscribe" [JStr "people"; JStr "peaches"];
              EvFilter "mario" (JStr "people") (JStr "peaches") JNull;
              EvCallback [JStr "Document not found!"]], []).
Proof.
  split; [reflexivity | split; [reflexivity |]].
  destruct (fetchAndSubscribe_dispatches_twice hub (JStr "people")
              (JStr "peaches") [JNull; JNull; JRef "source"] connected
              eq_refl eq_refl) as (t & Hq & Hok & _).
  exists t. split; [exact Hq | exact (Hok eq_refl eq_refl eq_refl eq_refl)].
Defined.

(** bulkFetch on the hub: mario passes, peaches is refused. *)
Lemma bulkFetch_calls_back_as_bulk_filters_decide_witness :
  connectCalled connected = true
  /\ bulkFetchRequestsEmpty (JObj [("people", JArr [JStr "mario"])]) = Ok false
  /\ exists t s' out,
       bulkFetch hub (JObj [("people", JArr [JStr "mario"])]) deliver connected
       = (Ok tt, connected, [], [t])
       /\ run_ticks 1 connected [t] = (s', out, [])
       /\ callbacks out = [[JStr "Document not found!"]].
Proof.
  split; [reflexivity | split; [reflexivity |]].
  exact (bulkFetch_calls_back_as_bulk_filters_decide hub
           (JObj [("people", JArr [JStr "mario"])])
           [JNull;
            JObj [("people", JObj [("mario", JObj []); ("peaches", JObj [])])]]
           connected eq_refl eq_refl eq_refl eq_refl eq_refl eq_refl).
Defined.

(** A bulk result with a collection and no document. *)
Lemma runBulkDocFilters_without_documents_witness :
  isBulkMap (fun _ => true) (JObj [("people", JObj [])]) = true
  /\ Forall (fun entry : string * jsval => js_entries (snd entry) = [])
    (js_entries (JObj [("people", JObj [])]))
  /\ exists s',
       runBulkDocFilters hub (JObj [("people", JObj [])]) (Some deliver)
         connected
       = (Ok tt, s', [EvCallback [JNull; JObj [("people", JObj [])]]], []).
Proof.
  assert (Forall (fun entry : string * jsval => js_entries (snd entry) = [])
            (js_entries (JObj [("people", JObj [])]))) as H
    by (repeat constructor).
  split; [reflexivity | split; [exact H |]].
  exact (runBulkDocFilters_without_documents hub (JObj [("people", JObj [])])
           connected eq_refl H).
Defined.

(** Two query results, the second refused. *)
Lemma filterQueryResults_filters_every_result_witness :
  forallb isObject [peachesResult; marioResult] = true
  /\ Forall (answersAtOnce hub (JStr "people")) [peachesResult; marioResult]
  /\ exists s' out,
       filterQueryResults hub (JStr "people")
         (JArr [peachesResult; marioResult])
         (fun e r => deliver [e; r]) connected
       = (Ok tt, s', out, [])
       /\ filterings out
          = [EvFilter "mario" (JStr "people") (JStr "peaches") peachesResult;
             EvFilter "mario" (JStr "people") (JStr "mario") marioResult].
Proof.
  assert (Forall (answersAtOnce hub (JStr "people"))
            [peachesResult; marioResult]) as H
    by (repeat constructor; vm_compute; discriminate).
  split; [reflexivity | split; [exact H |]].
  destruct (filterQueryResults_filters_every_result hub (JStr "people")
              [peachesResult; marioResult] connected eq_refl H)
    as (s' & out & Hrun & Hfl & _).
  exists s', out. split; [exact Hrun | exact Hfl].
Defined.

(** queryFetch on the hub: the second result is refused. *)
Lemma queryFetch_filters_results_and_keeps_extra_witness :
  connectCalled connected = true
  /\ stocked "queryFetch" [JStr "people"; JStr "q"; JNull]
     = Some [JNull; JArr [marioResult; peachesResult]; JStr "more"]
  /\ exists t s' out,
       queryFetch hub (JStr "people") (JStr "q") JNull deliver connected
       = (Ok tt, connected, [], [t])
       /\ run_ticks 1 connected [t] = (s', out, [])
       /\ callbacks out = [[JStr "Document not found!"]].
Proof.
  split; [reflexivity | split; [reflexivity |]].
  destruct (queryFetch_filters_results_and_keeps_extra hub (JStr "people")
              (JStr "q") JNull
              [JNull; JArr [marioResult; peachesResult]; JStr "more"] connected
              eq_refl eq_refl eq_refl eq_refl) as (t & Hq & _ & Hitems).
  destruct (Hitems [marioResult; peachesResult] eq_refl eq_refl)
    as (s' & out & Hrun & _ & Hrej & _).
  { repeat constructor; vm_compute; discriminate. }
  exists t, s', out. split; [exact Hq | split; [exact Hrun |]].
  exact (Hrej (JStr "Document not found!") eq_refl).
Defined.

(** query on the hub. *)
Lemma query_delivers_filtered_initial_results_witness :
  connectCalled connected = true
  /\ exists t s' out,
       query hub (JStr "people") (JStr "q") JNull deliver connected
       = (Ok tt, connected, [], [t])
       /\ run_ticks 1 connected [t] = (s', out, [])
       /\ callbacks out
          = [[JNull;
              JObj [("data",
                     JArr [JObj [("docName", JStr "mario");
                                 ("greeting", JStr "It'se me: Mario")]]);
                    ("extra", JStr "more")]]].
Proof.
  split; [reflexivity |].
  destruct (query_delivers_filtered_initial_results hub (JStr "people")
              (JStr "q") JNull
              [JNull;
               JObj [("data", JArr [marioResult]); ("extra", JStr "more")]]
              [marioResult] connected
              eq_refl eq_refl eq_refl eq_refl eq_refl eq_refl)
    as (t & s' & out & Hq & Hrun & _ & _ & Hok).
  { repeat constructor; vm_compute; discriminate. }
  exists t, s', out. split; [exact Hq | split; [exact Hrun |]].
  exact (Hok eq_refl).
Defined.

(** bulkSubscribe on the hub. *)
Lemma bulkSubscribe_delivers_wrapped_streams_witness :
  connectCalled connected = true
  /\ exists t,
       bulkSubscribe hub (JObj [("people", JObj [("mario", JNum 3)])]) deliver
         connected
       = (Ok tt, connected, [], [t])
       /\ run_ticks 1 connected [t]
          = (connected,
             [EvMiddleware "audit";
              EvBackend "bulkSubscribe"
                [JObj [("people", JObj [("mario", JNum 3)])]];
              EvCallback
                [JNull;
                 JObj [("people",
                        JObj [("mario",
                               JWrapped (JStr "people") (JStr "mario")
                                 (JRef "source"))])]]], []).
Proof.
  split; [reflexivity |].
  exact (bulkSubscribe_delivers_wrapped_streams hub
           (JObj [("people", JObj [("mario", JNum 3)])])
           [JNull; JObj [("people", JObj [("mario", JRef "source")])]]
           connected eq_refl eq_refl eq_refl eq_refl eq_refl).
Defined.
